(** * Excel-to-MySQL transfer script: a shallow embedding of
      [excel_to_mysql.py] and the properties of its pipeline.

    The script reads a configuration file, opens one MySQL connection,
    creates the destination table from the spreadsheet headers, and
    inserts the rows one by one.  Pure helpers are plain functions;
    the functions that touch the outside (files, log, terminal, driver)
    run in a small state-and-exception monad over a [World]. *)

From Stdlib Require Import ZArith NArith Ascii String DecimalString.
From Stdlib Require DecimalPos DecimalZ.
From stdpp Require Import base option list strings gmap.

Local Open Scope Z_scope.

(** ** Text helpers (Python [str] methods used by the script) *)

Module Text.

(** [sep.join(parts)] *)
Fixpoint join (sep : string) (parts : list string) : string :=
  match parts with
  | [] => ""
  | [p] => p
  | p :: rest => p +:+ sep +:+ join sep rest
  end.

(** [s.replace(old, new)] for one-character [old] and [new].  Strings
    are byte strings here; the three characters the script replaces
    are ASCII, and no byte of a multi-byte UTF-8 sequence equals an
    ASCII byte, so the byte-wise replacement is the code-point one. *)
Fixpoint replace (old new : ascii) (s : string) : string :=
  match s with
  | EmptyString => EmptyString
  | String c rest =>
      String (if Ascii.eqb c old then new else c) (replace old new rest)
  end.

(** [str(n)] for a natural number and for an integer. *)
Definition of_N (n : N) : string := NilZero.string_of_uint (N.to_uint n).
Definition of_Z (z : Z) : string := NilZero.string_of_int (Z.to_int z).

(** Zero-padded decimal of width [w], as the two-digit [strftime]
    directives print it. *)
Fixpoint zeros (k : nat) : string :=
  match k with O => "" | S k' => String "0" (zeros k') end.

Definition zpad (w : nat) (n : N) : string :=
  let s := of_N n in zeros (w - String.length s) +:+ s.


(** Character-wise image of a string. *)
Fixpoint smap (f : ascii -> ascii) (s : string) : string :=
  match s with
  | EmptyString => EmptyString
  | String c rest => String (f c) (smap f rest)
  end.

(** Number of places at which [needle] starts in [s]. *)
Fixpoint occurrences (needle s : string) : nat :=
  match s with
  | EmptyString => 0%nat
  | String _ rest =>
      ((if String.prefix needle s then 1 else 0) + occurrences needle rest)%nat
  end.

End Text.

(** ** Cell values of the data frame *)

(** A [pd.Timestamp]: calendar fields, the sub-second part in
    nanoseconds, and the UTC offset text of a zone-aware value. *)
Record Timestamp := {
  ts_year : N;
  ts_month : N;
  ts_day : N;
  ts_hour : N;
  ts_minute : N;
  ts_second : N;
  ts_nanos : N;
  ts_offset : option string
}.

(** What a cell of a row handed out by [df.iterrows()] can be. *)
Inductive cell :=
| CNone                        (* None *)
| CNaN                         (* float('nan') *)
| CNaT                         (* pd.NaT *)
| CNA                          (* pd.NA *)
| CTimestamp (t : Timestamp)   (* pd.Timestamp *)
| CStr (s : string)
| CInt (z : Z)
| CBool (b : bool)
| CFloat (text : string).      (* a float that is not NaN, with its [str] *)

(** Column labels: text, or a number when the header cell is numeric. *)
Inductive label :=
| LStr (s : string)
| LInt (z : Z).

Module Pandas.

(** [pd.isna(val)] on a scalar. *)
Definition isna (val : cell) : bool :=
  match val with
  | CNone | CNaN | CNaT | CNA => true
  | _ => false
  end.

(** [isinstance(val, pd.Timestamp)] *)
Definition is_timestamp (val : cell) : bool :=
  match val with CTimestamp _ => true | _ => false end.

(** One [strftime] directive.  [%Y] prints the year in decimal (the
    C library pads it to four digits on some platforms only, which
    shows below the year 1000); the others are two digits wide. *)
Definition directive (d : ascii) (t : Timestamp) : string :=
  if Ascii.eqb d "Y" then Text.of_N (ts_year t)
  else if Ascii.eqb d "m" then Text.zpad 2 (ts_month t)
  else if Ascii.eqb d "d" then Text.zpad 2 (ts_day t)
  else if Ascii.eqb d "H" then Text.zpad 2 (ts_hour t)
  else if Ascii.eqb d "M" then Text.zpad 2 (ts_minute t)
  else if Ascii.eqb d "S" then Text.zpad 2 (ts_second t)
  else String "%" (String d "").

(** [t.strftime(fmt)] *)
Fixpoint strftime (fmt : string) (t : Timestamp) : string :=
  match fmt with
  | EmptyString => EmptyString
  | String c rest =>
      if Ascii.eqb c "%" then
        match rest with
        | EmptyString => String c EmptyString
        | String d rest' => directive d t +:+ strftime rest' t
        end
      else String c (strftime rest t)
  end.

(** The sub-second part of [str(t)]: nothing, six digits, or nine. *)
Definition fraction (t : Timestamp) : string :=
  if (ts_nanos t =? 0)%N then ""
  else if (ts_nanos t mod 1000 =? 0)%N
       then "." +:+ Text.zpad 6 (ts_nanos t / 1000)%N
       else "." +:+ Text.zpad 9 (ts_nanos t).

(** [str(val)] *)
Definition str (val : cell) : string :=
  match val with
  | CNone => "None"
  | CNaN => "nan"
  | CNaT => "NaT"
  | CNA => "<NA>"
  | CTimestamp t =>
      strftime "%Y-%m-%d %H:%M:%S" t +:+ fraction t +:+ default "" (ts_offset t)
  | CStr s => s
  | CInt z => Text.of_Z z
  | CBool b => if b then "True" else "False"
  | CFloat text => text
  end.

(** [str(col)] for a column label. *)
Definition label_str (col : label) : string :=
  match col with LStr s => s | LInt z => Text.of_Z z end.

End Pandas.

(** ** Row value converter (lines 98-105) *)

(** The result is [None] or a Python [str]. *)
Definition convert_timestamp (val : cell) : option string :=
  if Pandas.isna val then None
  else if Pandas.is_timestamp val then
    match val with
    | CTimestamp t => Some (Pandas.strftime "%Y-%m-%d %H:%M:%S" t)
    | _ => Some (Pandas.str val)
    end
  else Some (Pandas.str val).

(** ** Column name cleaning (line 80) *)

(** [f"`{col.replace(' ', '_').replace('-', '_').replace('.', '_')}`"]
    for a text header. *)
Definition clean_name (col : string) : string :=
  "`" +:+ Text.replace "." "_" (Text.replace "-" "_" (Text.replace " " "_" col)) +:+ "`".


(** ** The data frame and the files of the run *)

(** A data frame as the script uses it: the column labels with the
    name of each column's dtype, and the rows in sheet order, each row
    holding the cells that [iterrows] hands out for it. *)
Record DataFrame := {
  df_cols : list (label * string);
  df_rows : list (list cell)
}.

(** [df.columns] *)
Definition df_columns (df : DataFrame) : list label := fst <$> df_cols df.

(** A frame is rectangular: every row has one cell per column. *)
Definition rectangular (df : DataFrame) : Prop :=
  Forall (fun row => length row = length (df_cols df)) (df_rows df).

(** A parsed INI file: sections in order, each with its keys in order. *)
Definition ini := list (string * list (string * string)).

(** What a path of the file system holds. *)
Inductive file :=
| IniFile (c : ini)
| ExcelFile (df : DataFrame)
| OtherFile (raw : string).

(** The dictionary returned by [read_config]. *)
Record Config := {
  host : string;
  database : string;
  user : string;
  password : string;
  table : string;
  excel_file : string
}.

(** ** Exceptions and return values *)

Inductive exn :=
| Error (e : string)              (* mysql.connector.Error, with str(e) *)
| FileNotFoundError (path : string)
| ValueError (msg : string)
| AttributeError (msg : string)
| KeyError (key : string)
| ParsingError (path : string)
| InterpolationError (kind : string)   (* configparser.InterpolationError *)
| UnicodeError (msg : string)
| SystemExit (status : Z).

(** The values the script's functions hand back where Python's
    dynamic typing matters to a reader of the contract. *)
Inductive pyval :=
| VBool (b : bool)
| VInt (n : Z).

(** Python's [==] on these values ([True == 1], [False == 0]). *)
Definition py_eq (a b : pyval) : bool :=
  match a, b with
  | VBool x, VBool y => Bool.eqb x y
  | VInt x, VInt y => (x =? y)
  | VBool x, VInt y | VInt y, VBool x => (Z.b2z x =? y)
  end.

(** ** The database server and the driver *)

(** How a connection attempt fails: the server rejects it with an
    error of the driver (login refused, host out of reach, database
    unknown), or the host name cannot be encoded and the attempt ends
    with [UnicodeError] before the server is reached. *)
Inductive refusal :=
| Refused (e : string)
| Unencodable (msg : string).

(** The part of the server the script can observe.  [srv_refuse] is
    the failure of a connection attempt, if it fails; [srv_alive] is
    what [is_connected()] answers after a login; [srv_faults] scripts
    the next [execute] and [commit] calls, one entry per call, [Some e]
    making that call raise [Error e]; [srv_tables] maps each existing
    table to its column definitions. *)
Record Server := {
  srv_refuse : option refusal;
  srv_alive : bool;
  srv_faults : list (option string);
  srv_tables : gmap string string
}.

(** Calls made on the driver, in order. *)
Inductive call :=
| CallConnect (host database user password : string)
| CallCursor
| CallExecute (sql : string) (params : option (list (option string)))
| CallCommit
| CallClose.

Inductive level := INFO | ERROR.

(** What was written to the terminal. *)
Inductive output :=
| Line (s : string)                (* print(s) *)
| FrameSummary (df : DataFrame).   (* the table printed by df.info() *)

(** Everything outside the process that a run reads or changes.  [log]
    is the content of the run's log file, which [logging.basicConfig]
    (lines 10-14) opens when the module is loaded; [fs] holds the other
    files. *)
Record World := {
  fs : gmap string file;
  log : list (level * string);
  stdout : list output;
  server : Server;
  calls : list call
}.

(** ** The monad of the script: state over [World], with exceptions *)

Inductive result (A : Type) :=
| Return (a : A)
| Raise (e : exn).
Arguments Return {A} a.
Arguments Raise {A} e.

Definition Py (A : Type) : Type := World -> result A * World.

Definition ret {A} (a : A) : Py A := fun w => (Return a, w).
Definition raise {A} (e : exn) : Py A := fun w => (Raise e, w).

Definition bind {A B} (m : Py A) (k : A -> Py B) : Py B :=
  fun w =>
    match m w with
    | (Return a, w') => k a w'
    | (Raise e, w') => (Raise e, w')
    end.

Notation "'do' x <- m ; k" := (bind m (fun x => k))
  (at level 10, x name, m at level 100, k at level 200,
   format "'[v' 'do'  x  <-  m ; '/' k ']'").
Notation "'run' m ; k" := (bind m (fun _ => k))
  (at level 10, m at level 100, k at level 200,
   format "'[v' 'run'  m ; '/' k ']'").

(** [try: body  except Error as e: handler(e)]: only the driver's
    [Error] is caught; every other exception passes through. *)
Definition try_except_Error {A} (body : Py A) (handler : string -> Py A) : Py A :=
  fun w =>
    match body w with
    | (Raise (Error e), w') => handler e w'
    | other => other
    end.

(** *** Primitive effects *)

Definition logging (lvl : level) (msg : string) : Py unit :=
  fun w => (Return tt,
            {| fs := fs w; log := log w ++ [(lvl, msg)]; stdout := stdout w;
               server := server w; calls := calls w |}).

Definition show (o : output) : Py unit :=
  fun w => (Return tt,
            {| fs := fs w; log := log w; stdout := stdout w ++ [o];
               server := server w; calls := calls w |}).

Definition print (s : string) : Py unit := show (Line s).

(** [exit(status)] *)
Definition exit {A} (status : Z) : Py A := raise (SystemExit status).

(** [os.path.exists(path)] *)
Definition path_exists (path : string) : Py bool :=
  fun w => (Return (bool_decide (is_Some (fs w !! path))), w).

(** [with open(path, 'w') as f: config.write(f)] *)
Definition write_ini (path : string) (c : ini) : Py unit :=
  fun w => (Return tt,
            {| fs := <[path := IniFile c]> (fs w); log := log w;
               stdout := stdout w; server := server w; calls := calls w |}).

(** [pd.read_excel(path)] *)
Definition read_excel (path : string) : Py DataFrame :=
  fun w =>
    match fs w !! path with
    | Some (ExcelFile df) => (Return df, w)
    | Some _ => (Raise (ValueError "Excel file format cannot be determined"), w)
    | None => (Raise (FileNotFoundError path), w)
    end.

(** [configparser.ConfigParser().read(path)]: a missing file is
    skipped silently, a file that is not an INI file is refused. *)
Definition configparser_read (path : string) : Py ini :=
  fun w =>
    match fs w !! path with
    | Some (IniFile c) => (Return c, w)
    | Some _ => (Raise (ParsingError path), w)
    | None => (Return [], w)
    end.

Fixpoint assoc {V} (key : string) (l : list (string * V)) : option V :=
  match l with
  | [] => None
  | (k, v) :: rest => if String.eqb k key then Some v else assoc key rest
  end.

(** *** Values of a [ConfigParser]

    A parsed file holds its sections under their names, with the keys
    in lower case as the parser stores them; the section [DEFAULT]
    supplies the keys that a section lacks.  A value is read through
    [BasicInterpolation]: [%%] stands for a percent sign and
    [%(name)s] for the value of [name], itself interpolated, at most
    ten levels deep. *)

(** [name.lower()], for ASCII letters. *)
Definition lower_char (c : ascii) : ascii :=
  let k := N_of_ascii c in
  if ((65 <=? k) && (k <=? 90))%N then ascii_of_N (k + 32) else c.

Definition lower (s : string) : string := Text.smap lower_char s.

(** ["%" in v] *)
Fixpoint has_percent (s : string) : bool :=
  match s with
  | EmptyString => false
  | String c rest => Ascii.eqb c "%" || has_percent rest
  end.

(** The text before the first [%], and the text from it on
    ([rest.find("%")] and the two slices). *)
Fixpoint until_percent (s : string) : string * string :=
  match s with
  | EmptyString => (EmptyString, EmptyString)
  | String c rest =>
      if Ascii.eqb c "%" then (EmptyString, s)
      else let '(plain, tail) := until_percent rest in (String c plain, tail)
  end.

(** The text before the first [)], and the text after it. *)
Fixpoint until_paren (s : string) : option (string * string) :=
  match s with
  | EmptyString => None
  | String c rest =>
      if Ascii.eqb c ")" then Some (EmptyString, rest)
      else match until_paren rest with
           | Some (name, tail) => Some (String c name, tail)
           | None => None
           end
  end.

(** The match of the pattern [%\(([^)]+)\)s] on a text, given what
    follows its [%(]: the name, and what follows the match. *)
Definition key_reference (after_open : string) : option (string * string) :=
  match until_paren after_open with
  | Some (String c name, String s tail) =>
      if Ascii.eqb s "s" then Some (String c name, tail) else None
  | _ => None
  end.

(** [BasicInterpolation._interpolate_some]: [levels] is the number of
    levels still allowed, [steps] bounds the turns of its loop, each of
    which consumes at least one character of [rest]. *)
Fixpoint interpolate (levels : nat) (lookup : string -> option string)
    (value : string) : result string :=
  match levels with
  | O => Raise (InterpolationError "InterpolationDepthError")
  | S levels' =>
      (fix loop (steps : nat) (rest : string) : result string :=
         match steps with
         | O => Return EmptyString
         | S steps' =>
             let '(plain, tail) := until_percent rest in
             match tail with
             | EmptyString => Return plain
             | String _ EmptyString =>
                 Raise (InterpolationError "InterpolationSyntaxError")
             | String _ (String c after) =>
                 if Ascii.eqb c "%" then
                   match loop steps' after with
                   | Return more => Return (plain +:+ "%" +:+ more)
                   | Raise e => Raise e
                   end
                 else if Ascii.eqb c "(" then
                   match key_reference after with
                   | None => Raise (InterpolationError "InterpolationSyntaxError")
                   | Some (name, after') =>
                       match lookup (lower name) with
                       | None =>
                           Raise (InterpolationError "InterpolationMissingOptionError")
                       | Some v =>
                           match (if has_percent v then interpolate levels' lookup v
                                  else Return v) with
                           | Raise e => Raise e
                           | Return piece =>
                               match loop steps' after' with
                               | Return more => Return (plain +:+ piece +:+ more)
                               | Raise e => Raise e
                               end
                           end
                       end
                   end
                 else Raise (InterpolationError "InterpolationSyntaxError")
             end
         end) (S (String.length value)) value
  end.

(** The value of [config[section][key]]: [KeyError] for a section that
    is not in the file, and for a key that is neither in the section
    nor in [DEFAULT]; otherwise the value found, the section before
    [DEFAULT], after interpolation over the same keys. *)
Definition ini_value (c : ini) (section key : string) : result string :=
  match assoc section c with
  | None => Raise (KeyError section)
  | Some keys =>
      let lookup k :=
        match assoc k keys with
        | Some v => Some v
        | None => assoc k (default [] (assoc "DEFAULT" c))
        end in
      match lookup key with
      | None => Raise (KeyError key)
      | Some value => interpolate 10 lookup value
      end
  end.

(** [config[section][key]] *)
Definition ini_get (c : ini) (section key : string) : Py string :=
  fun w => (ini_value c section key, w).

(** *** The driver *)

Inductive Connection := MySQLConnection.

Definition record_call (c : call) : Py unit :=
  fun w => (Return tt,
            {| fs := fs w; log := log w; stdout := stdout w;
               server := server w; calls := calls w ++ [c] |}).

(** The scripted outcome of the next statement or commit. *)
Definition next_fault : Py (option string) :=
  fun w =>
    match srv_faults (server w) with
    | [] => (Return None, w)
    | f :: rest =>
        (Return f,
         {| fs := fs w; log := log w; stdout := stdout w;
            server := {| srv_refuse := srv_refuse (server w);
                         srv_alive := srv_alive (server w);
                         srv_faults := rest;
                         srv_tables := srv_tables (server w) |};
            calls := calls w |})
    end.

Fixpoint strip_prefix (p s : string) : option string :=
  match p, s with
  | EmptyString, _ => Some s
  | String a p', String b s' => if Ascii.eqb a b then strip_prefix p' s' else None
  | String _ _, EmptyString => None
  end.

(** The text up to the first space, and the text after it. *)
Fixpoint first_word (s : string) : string * string :=
  match s with
  | EmptyString => (EmptyString, EmptyString)
  | String c rest =>
      if Ascii.eqb c " " then (EmptyString, rest)
      else let '(w, r) := first_word rest in (String c w, r)
  end.

(** Modelled from the spec: the database server is not part of the
    repository.  Of the statements it runs, the model keeps the one the
    properties below depend on, as the glossary states it:
    create-if-not-exists is "table creation that is a no-op if a table
    with that name already exists"; a table that does not exist yet is
    created with the column definitions of the statement.  Stored rows
    are not modelled. *)
Definition run_statement (sql : string) (tables : gmap string string)
  : gmap string string :=
  match strip_prefix "CREATE TABLE IF NOT EXISTS " sql with
  | Some rest =>
      let '(name, defs) := first_word rest in
      match tables !! name with
      | Some _ => tables
      | None => <[name := defs]> tables
      end
  | None => tables
  end.

Definition server_runs (sql : string) : Py unit :=
  fun w => (Return tt,
            {| fs := fs w; log := log w; stdout := stdout w;
               server := {| srv_refuse := srv_refuse (server w);
                            srv_alive := srv_alive (server w);
                            srv_faults := srv_faults (server w);
                            srv_tables := run_statement sql (srv_tables (server w)) |};
               calls := calls w |}).

(** [mysql.connector.connect(host=..., database=..., user=..., password=...)] *)
Definition mysql_connect (h d u p : string) : Py Connection :=
  run record_call (CallConnect h d u p);
  fun w =>
    match srv_refuse (server w) with
    | Some (Refused e) => (Raise (Error e), w)
    | Some (Unencodable msg) => (Raise (UnicodeError msg), w)
    | None => (Return MySQLConnection, w)
    end.

(** [connection.is_connected()] *)
Definition is_connected (connection : Connection) : Py bool :=
  fun w => (Return (srv_alive (server w)), w).

(** [connection.cursor()] *)
Definition cursor (connection : Connection) : Py unit := record_call CallCursor.

(** [cursor.execute(sql)] and [cursor.execute(sql, params)] *)
Definition execute (sql : string) (params : option (list (option string))) : Py unit :=
  run record_call (CallExecute sql params);
  do fault <- next_fault;
  match fault with
  | Some e => raise (Error e)
  | None => server_runs sql
  end.

(** [connection.commit()] *)
Definition commit (connection : Connection) : Py unit :=
  run record_call CallCommit;
  do fault <- next_fault;
  match fault with
  | Some e => raise (Error e)
  | None => ret tt
  end.

(** [connection.close()] *)
Definition close (connection : Connection) : Py unit := record_call CallClose.

(** ** The script *)

(** *** [create_default_config] (lines 36-51) *)

Definition default_config : ini :=
  [ ("DATABASE", [ ("host", "localhost");
                   ("database", "your_database");
                   ("user", "your_username");
                   ("password", "your_password");
                   ("table", "form_responses") ]);
    ("FILES", [ ("excel_file", "google_form_responses.xlsx") ]) ].

Definition create_default_config (config_file : string) : Py unit :=
  write_ini config_file default_config.

(** *** [read_config] (lines 16-34) *)

Definition read_config (config_file : string) : Py Config :=
  do present <- path_exists config_file;
  run (if negb present then
         run create_default_config config_file;
         run logging INFO ("Created default config file: " +:+ config_file);
         run print ("Created default config file: " +:+ config_file);
         run print "Please update the config file with your database credentials and try again.";
         exit 1
       else ret tt);
  do config <- configparser_read config_file;
  do h <- ini_get config "DATABASE" "host";
  do d <- ini_get config "DATABASE" "database";
  do u <- ini_get config "DATABASE" "user";
  do p <- ini_get config "DATABASE" "password";
  do t <- ini_get config "DATABASE" "table";
  do x <- ini_get config "FILES" "excel_file";
  ret {| host := h; database := d; user := u; password := p;
         table := t; excel_file := x |}.

(** *** [connect_to_database] (lines 53-68) *)

(** When [is_connected()] answers false the body of the [try] ends
    without a [return], so the function returns [None]. *)
Definition connect_to_database (config : Config) : Py (option Connection) :=
  try_except_Error
    (do connection <- mysql_connect (host config) (database config)
                                    (user config) (password config);
     do alive <- is_connected connection;
     if alive then
       run logging INFO "Connected to MySQL database";
       ret (Some connection)
     else ret None)
    (fun e =>
       run logging ERROR ("Error connecting to MySQL database: " +:+ e);
       run print ("Error connecting to MySQL database: " +:+ e);
       ret None).

(** *** [create_table_if_not_exists] (lines 70-96) *)

(** The comprehension of line 80: a label that is not text has no
    [replace] method. *)
Fixpoint clean_columns (cols : list label) : result (list string) :=
  match cols with
  | [] => Return []
  | LStr col :: rest =>
      match clean_columns rest with
      | Return names => Return (clean_name col :: names)
      | Raise e => Raise e
      end
  | LInt _ :: _ => Raise (AttributeError "'int' object has no attribute 'replace'")
  end.

Definition lift {A} (r : result A) : Py A := fun w => (r, w).

(** Lines 83-85. *)
Definition create_table_sql (table_name : string) (columns : list string) : string :=
  (("CREATE TABLE IF NOT EXISTS " +:+ table_name +:+ " (id INT AUTO_INCREMENT PRIMARY KEY, ")
   +:+ Text.join ", " ((fun col => col +:+ " TEXT") <$> columns))
  +:+ ")".

(** The result [None] stands for the tuple [(None, None)] of line 96,
    [Some (df, columns)] for the tuple of line 92.  [df.info()] prints
    the frame summary and returns [None], which is what line 77 logs. *)
Definition create_table_if_not_exists
    (connection : Connection) (excel_file table_name : string)
  : Py (option (DataFrame * list string)) :=
  try_except_Error
    (do df <- read_excel excel_file;
     run show (FrameSummary df);
     run logging INFO "DataFrame info: None";
     do columns <- lift (clean_columns (df_columns df));
     run cursor connection;
     run execute (create_table_sql table_name columns) None;
     run commit connection;
     run logging INFO ("Table " +:+ table_name +:+ " created or already exists");
     ret (Some (df, columns)))
    (fun e =>
       run logging ERROR ("Error creating table: " +:+ e);
       run print ("Error creating table: " +:+ e);
       ret None).

(** *** [insert_data] (lines 107-132) *)

(** Line 113. *)
Definition placeholders (columns : list string) : string :=
  Text.join ", " (replicate (length columns) "%s").

(** Line 114. *)
Definition insert_sql (table_name : string) (columns : list string) : string :=
  "INSERT INTO " +:+ table_name +:+ " (" +:+ Text.join ", " columns
  +:+ ") VALUES (" +:+ placeholders columns +:+ ")".

(** The loop of lines 117-122, with the counter threaded through. *)
Fixpoint insert_rows (sql : string) (rows : list (list cell)) (records : Z) : Py Z :=
  match rows with
  | [] => ret records
  | row :: rest =>
      let values := convert_timestamp <$> row in
      run execute sql (Some values);
      insert_rows sql rest (records + 1)
  end.

Definition insert_data
    (connection : Connection) (df : DataFrame) (columns : list string)
    (table_name : string) : Py pyval :=
  try_except_Error
    (run cursor connection;
     do records <- insert_rows (insert_sql table_name columns) (df_rows df) 0;
     run commit connection;
     run logging INFO ("Successfully inserted " +:+ Text.of_Z records
                       +:+ " records into " +:+ table_name);
     run print ("Successfully inserted " +:+ Text.of_Z records
                +:+ " records into " +:+ table_name);
     ret (VBool true))
    (fun e =>
       run logging ERROR ("Error inserting data: " +:+ e);
       run print ("Error inserting data: " +:+ e);
       ret (VBool false)).

(** *** [main] (lines 134-170) *)

(** Lines 155-156. *)
Fixpoint log_dtypes (cols : list (label * string)) : Py unit :=
  match cols with
  | [] => ret tt
  | (col, dtype) :: rest =>
      run logging INFO (Pandas.label_str col +:+ ": " +:+ dtype);
      log_dtypes rest
  end.

(** Truth value of a returned value ([if success:]). *)
Definition truthy (v : pyval) : bool :=
  match v with
  | VBool b => b
  | VInt n => negb (n =? 0)
  end.

Definition main : Py unit :=
  run print "Starting Excel to MySQL data transfer...";
  run logging INFO "Starting Excel to MySQL data transfer";
  do config <- read_config "config.ini";
  do connection <- connect_to_database config;
  match connection with
  | None => ret tt
  | Some connection =>
      do synced <- create_table_if_not_exists connection (excel_file config) (table config);
      match synced with
      | None =>
          run close connection;
          ret tt
      | Some (df, columns) =>
          run logging INFO "DataFrame data types:";
          run log_dtypes (df_cols df);
          do success <- insert_data connection df columns (table config);
          run close connection;
          run logging INFO "Database connection closed";
          if truthy success then
            run print "Data transfer completed successfully!";
            logging INFO "Data transfer completed successfully"
          else
            run print "Data transfer failed. Check log file for details.";
            logging ERROR "Data transfer failed"
      end
  end.

(** ** Vocabulary of the properties *)

(** The rule of the data model, character by character: a space, a
    hyphen or a period becomes an underscore, anything else stays. *)
Definition underscore_separator (c : ascii) : ascii :=
  if Ascii.eqb c " " then "_"
  else if Ascii.eqb c "-" then "_"
  else if Ascii.eqb c "." then "_"
  else c.






(** The date-time of the end-to-end scenario, and one with a
    sub-second part and a zone. *)
Definition jan2 : Timestamp :=
  {| ts_year := 2024; ts_month := 1; ts_day := 2; ts_hour := 3;
     ts_minute := 4; ts_second := 5; ts_nanos := 0; ts_offset := None |}.

Definition jan2_precise : Timestamp :=
  {| ts_year := 2024; ts_month := 1; ts_day := 2; ts_hour := 3;
     ts_minute := 4; ts_second := 5; ts_nanos := 678000000;
     ts_offset := Some "+05:30" |}.

(** The error of the first refused call among the next [n] calls that
    a fault script answers, if one of them is refused. *)
Fixpoint first_fault (n : nat) (faults : list (option string)) : option string :=
  match n, faults with
  | S n', None :: rest => first_fault n' rest
  | S _, Some e :: _ => Some e
  | _, _ => None
  end.

(** The same for a server: [rejection n srv = None] says that the
    server accepts the next [n] statements and commits. *)
Definition rejection (n : nat) (srv : Server) : option string :=
  first_fault n (srv_faults srv).

(** A value that was read, if it was. *)
Definition got {A} (r : result A) : option A :=
  match r with
  | Return a => Some a
  | Raise _ => None
  end.

(** The six settings of a parsed configuration file, when each of them
    can be read. *)
Definition settings (c : ini) : option Config :=
  h ← got (ini_value c "DATABASE" "host");
  d ← got (ini_value c "DATABASE" "database");
  u ← got (ini_value c "DATABASE" "user");
  p ← got (ini_value c "DATABASE" "password");
  t ← got (ini_value c "DATABASE" "table");
  x ← got (ini_value c "FILES" "excel_file");
  Some {| host := h; database := d; user := u; password := p;
          table := t; excel_file := x |}.

(** The driver call that submits one row. *)
Definition row_call (sql : string) (row : list cell) : call :=
  CallExecute sql (Some (convert_timestamp <$> row)).

(** The success line of [insert_data] and its [except] branch. *)
Definition inserted_message (records : Z) (table_name : string) : string :=
  "Successfully inserted " +:+ Text.of_Z records +:+ " records into " +:+ table_name.

Definition insert_failed (e : string) (w : World) : result pyval * World :=
  (Return (VBool false),
   (print ("Error inserting data: " +:+ e)
      (logging ERROR ("Error inserting data: " +:+ e) w).2).2).

(** Unfolding of the primitive effects. *)
Ltac run_driver :=
  unfold execute, commit, cursor, close, record_call, next_fault, server_runs,
         logging, print, show, bind, ret, raise.

(** The [except] branch of [create_table_if_not_exists]. *)
Definition sync_failed (e : string) (w : World)
  : result (option (DataFrame * list string)) * World :=
  (Return None,
   (print ("Error creating table: " +:+ e)
      (logging ERROR ("Error creating table: " +:+ e) w).2).2).

(** The world after lines 74-77: the frame summary is on the terminal
    and the log has the line about it. *)
Definition after_read (df : DataFrame) (w : World) : World :=
  (logging INFO "DataFrame info: None" (show (FrameSummary df) w).2).2.

(** Lines 161-170 of [main]: closing the connection and the verdict. *)
Definition wrap_up (connection : Connection) (success : pyval) : Py unit :=
  run close connection;
  run logging INFO "Database connection closed";
  if truthy success then
    run print "Data transfer completed successfully!";
    logging INFO "Data transfer completed successfully"
  else
    run print "Data transfer failed. Check log file for details.";
    logging ERROR "Data transfer failed".

(** Lines 153-170 of [main]: what follows a successful schema
    synchronization. *)
Definition transfer (connection : Connection) (config : Config)
    (df : DataFrame) (columns : list string) : Py unit :=
  run logging INFO "DataFrame data types:";
  run log_dtypes (df_cols df);
  do success <- insert_data connection df columns (table config);
  wrap_up connection success.

(** The verdict printed last. *)
Definition verdict (success : pyval) : string :=
  if truthy success then "Data transfer completed successfully!"
  else "Data transfer failed. Check log file for details.".

(** The world after the two opening lines of [main]. *)
Definition started (w : World) : World :=
  (logging INFO "Starting Excel to MySQL data transfer"
     (print "Starting Excel to MySQL data transfer..." w).2).2.

(** The calls of a list that submit a row: [execute] with parameters. *)
Definition is_insert (c : call) : bool :=
  match c with
  | CallExecute _ (Some _) => true
  | _ => false
  end.

Definition insert_attempts (made : list call) : list call :=
  List.filter is_insert made.

(** The log line of one column in lines 155-156. *)
Definition dtype_line (col : label * string) : level * string :=
  (INFO, Pandas.label_str col.1 +:+ ": " +:+ col.2).

(** ** The worlds of the scenarios *)

(** The sheet of the end-to-end scenario, and one with two records
    whose second score is empty: pandas then reads the score column as
    floats. *)
Definition form_frame : DataFrame :=
  {| df_cols := [ (LStr "Full Name", "object"); (LStr "Score-1", "int64");
                  (LStr "Submitted On", "datetime64[ns]") ];
     df_rows := [ [CStr "Jane Doe"; CInt 42; CTimestamp jan2] ] |}.

Definition two_records : DataFrame :=
  {| df_cols := [ (LStr "Full Name", "object"); (LStr "Score-1", "float64");
                  (LStr "Submitted On", "datetime64[ns]") ];
     df_rows := [ [CStr "Jane Doe"; CFloat "42.0"; CTimestamp jan2];
                  [CStr "John Roe"; CNaN; CTimestamp jan2_precise] ] |}.

Definition form_columns : list string :=
  [ "`Full_Name`"; "`Score_1`"; "`Submitted_On`" ].

Definition form_config : ini :=
  [ ("DATABASE", [ ("host", "db.example"); ("database", "forms");
                   ("user", "importer"); ("password", "secret");
                   ("table", "form_responses") ]);
    ("FILES", [ ("excel_file", "responses.xlsx") ]) ].

Definition form_settings : Config :=
  {| host := "db.example"; database := "forms"; user := "importer";
     password := "secret"; table := "form_responses";
     excel_file := "responses.xlsx" |}.

(** A server that lets the importer in and accepts every call. *)
Definition quiet_server : Server :=
  {| srv_refuse := None; srv_alive := true; srv_faults := [];
     srv_tables := ∅ |}.

(** The same server out of reach, and one that rejects the first
    statement it is sent. *)
Definition unreachable_server : Server :=
  {| srv_refuse := Some (Refused "2003: Can't connect to MySQL server on 'db.example:3306'");
     srv_alive := false; srv_faults := []; srv_tables := ∅ |}.

Definition rejecting_server : Server :=
  {| srv_refuse := None; srv_alive := true;
     srv_faults := [Some "1142 (42000): CREATE command denied to user 'importer'"];
     srv_tables := ∅ |}.

Definition world_of (files : gmap string file) (srv : Server) : World :=
  {| fs := files; log := []; stdout := []; server := srv; calls := [] |}.

(** A first run (no configuration file), a configured run, one whose
    sheet is missing, and one whose sheet is not a spreadsheet. *)
Definition first_run : World := world_of ∅ quiet_server.

Definition configured (srv : Server) : World :=
  world_of (<["config.ini" := IniFile form_config]>
              (<["responses.xlsx" := ExcelFile two_records]> ∅)) srv.

Definition sheet_missing : World :=
  world_of (<["config.ini" := IniFile form_config]> ∅) quiet_server.

Definition sheet_malformed : World :=
  world_of (<["config.ini" := IniFile form_config]>
              (<["responses.xlsx" := OtherFile "name;score"]> ∅)) quiet_server.

(** ** Vocabulary of the further properties *)

(** The three characters that line 80 replaces. *)
Definition is_separator (c : ascii) : bool :=
  Ascii.eqb c " " || Ascii.eqb c "-" || Ascii.eqb c ".".

(** Every character of a text passes a test. *)
Fixpoint every (test : ascii -> bool) (s : string) : bool :=
  match s with
  | EmptyString => true
  | String c rest => test c && every test rest
  end.


(** Reading back the decimal text of an integer. *)
Definition parse_Z (s : string) : option Z :=
  Z.of_int <$> NilZero.int_of_string s.

(** The names that [read_config] looks up, sections and keys. *)
Definition setting_names : list string :=
  [ "DATABASE"; "FILES"; "host"; "database"; "user"; "password"; "table";
    "excel_file" ].

(** The settings of the template. *)
Definition placeholder_settings : Config :=
  {| host := "localhost"; database := "your_database";
     user := "your_username"; password := "your_password";
     table := "form_responses"; excel_file := "google_form_responses.xlsx" |}.

(** A configuration file without the password. *)
Definition config_without_password : ini :=
  [ ("DATABASE", [ ("host", "db.example"); ("database", "forms");
                   ("user", "importer"); ("table", "form_responses") ]);
    ("FILES", [ ("excel_file", "responses.xlsx") ]) ].

(** A server that accepts the login but whose connection is reported
    as not connected. *)
Definition stale_server : Server :=
  {| srv_refuse := None; srv_alive := false; srv_faults := [];
     srv_tables := ∅ |}.

Definition passwordless : World :=
  world_of (<["config.ini" := IniFile config_without_password]> ∅) quiet_server.

(** A sheet whose second header is a number. *)
Definition numbered_frame : DataFrame :=
  {| df_cols := [ (LStr "Name", "object"); (LInt 2024, "int64") ];
     df_rows := [ [CStr "Jane Doe"; CInt 7] ] |}.

(** A server that accepts the create statement and its commit and
    rejects the second row it is sent. *)
Definition second_row_server : Server :=
  {| srv_refuse := None; srv_alive := true;
     srv_faults := [None; None; None; Some "1406 (22001): Data too long for column"];
     srv_tables := ∅ |}.

(** A world whose server accepts one row and rejects the next. *)
Definition one_row_then_refusal : World :=
  world_of ∅ {| srv_refuse := None; srv_alive := true;
                srv_faults := [None; Some "1406 (22001): Data too long for column"];
                srv_tables := ∅ |}.

(** The exceptions that are not the driver's [Error]. *)
Definition foreign (x : exn) : bool :=
  match x with
  | Error _ => false
  | _ => true
  end.

(** A configured world whose sheet has a numeric header. *)
Definition numbered_world : World :=
  world_of (<["config.ini" := IniFile form_config]>
              (<["responses.xlsx" := ExcelFile numbered_frame]> ∅)) quiet_server.

(** Membership in an explicit list, entry by entry. *)
Ltac not_listed H :=
  repeat (apply elem_of_cons in H as [H|H]; [discriminate H|]);
  now apply elem_of_nil in H.

(** A server that accepts the create statement and rejects its commit,
    and a world whose server accepts two rows and rejects the commit. *)
Definition commit_refusing_server : Server :=
  {| srv_refuse := None; srv_alive := true;
     srv_faults := [None; Some "1180 (HY000): Got error during COMMIT"];
     srv_tables := ∅ |}.

Definition rows_then_refused_commit : World :=
  world_of ∅ {| srv_refuse := None; srv_alive := true;
                srv_faults := [None; None; Some "1180 (HY000): Got error during COMMIT"];
                srv_tables := ∅ |}.

(** ** Vocabulary of the revised properties *)

(** No value of the file holds a percent sign. *)
Definition percent_free (c : ini) : bool :=
  forallb (fun section => forallb (fun kv => negb (has_percent kv.2)) section.2) c.

(** The six lookups of [read_config], section and key. *)
Definition lookups : list (string * string) :=
  [ ("DATABASE", "host"); ("DATABASE", "database"); ("DATABASE", "user");
    ("DATABASE", "password"); ("DATABASE", "table"); ("FILES", "excel_file") ].

(** A setting that the file does not supply: its section is not in the
    file, or its key is neither in the section nor in [DEFAULT]. *)
Definition unsupplied (c : ini) (section key : string) : bool :=
  match assoc section c with
  | None => true
  | Some keys =>
      match assoc key keys, assoc key (default [] (assoc "DEFAULT" c)) with
      | None, None => true
      | _, _ => false
      end
  end.

(** Markers of the driver in a statement text. *)
Definition markers (s : string) : nat := Text.occurrences "%s" s.


Definition starts_with_s (s : string) : bool :=
  match s with
  | String c _ => Ascii.eqb c "s"
  | EmptyString => false
  end.

Fixpoint ends_with_percent (s : string) : bool :=
  match s with
  | EmptyString => false
  | String c EmptyString => Ascii.eqb c "%"
  | String _ rest => ends_with_percent rest
  end.

(** A marker that starts at the end of one text and ends at the start
    of the next. *)
Definition straddles (a b : string) : nat :=
  if ends_with_percent a && starts_with_s b then 1 else 0.


(** A sheet with a header that contains the marker of the driver. *)
Definition marker_frame : DataFrame :=
  {| df_cols := [ (LStr "a%sb", "object") ];
     df_rows := [ [CStr "x"] ] |}.

Definition marker_world : World :=
  world_of (<["config.ini" := IniFile form_config]>
              (<["responses.xlsx" := ExcelFile marker_frame]> ∅)) quiet_server.

(** A configuration whose table comes from [DEFAULT], one whose
    password refers to the user name and holds a doubled percent sign,
    and one with a stray percent sign. *)
Definition config_with_defaults : ini :=
  [ ("DEFAULT", [ ("table", "form_responses") ]);
    ("DATABASE", [ ("host", "db.example"); ("database", "forms");
                   ("user", "importer"); ("password", "secret") ]);
    ("FILES", [ ("excel_file", "responses.xlsx") ]) ].


Definition config_with_stray_percent : ini :=
  [ ("DATABASE", [ ("host", "db.example"); ("database", "forms");
                   ("user", "importer"); ("password", "50%off");
                   ("table", "form_responses") ]);
    ("FILES", [ ("excel_file", "responses.xlsx") ]) ].

(** The end-to-end scenario with another configuration file. *)
Definition with_config (c : ini) : World :=
  world_of (<["config.ini" := IniFile c]>
              (<["responses.xlsx" := ExcelFile form_frame]> ∅)) quiet_server.

(** A host name that cannot be encoded. *)
Definition unencodable_server : Server :=
  {| srv_refuse := Some (Unencodable "encoding with 'idna' codec failed");
     srv_alive := false; srv_faults := []; srv_tables := ∅ |}.

(** The dictionary of lines 27-34, the six values read in order. *)
Definition loaded (c : ini) : result Config :=
  match ini_value c "DATABASE" "host" with
  | Raise e => Raise e
  | Return h =>
  match ini_value c "DATABASE" "database" with
  | Raise e => Raise e
  | Return d =>
  match ini_value c "DATABASE" "user" with
  | Raise e => Raise e
  | Return u =>
  match ini_value c "DATABASE" "password" with
  | Raise e => Raise e
  | Return p =>
  match ini_value c "DATABASE" "table" with
  | Raise e => Raise e
  | Return t =>
  match ini_value c "FILES" "excel_file" with
  | Raise e => Raise e
  | Return x =>
      Return {| host := h; database := d; user := u; password := p;
                table := t; excel_file := x |}
  end end end end end end.

(** * Properties *)

(** ** Column names *)

Lemma replace_chain (col : string) :
  Text.replace "." "_" (Text.replace "-" "_" (Text.replace " " "_" col))
  = Text.smap underscore_separator col.
Proof.
  induction col as [|c rest IH]; [reflexivity|].
  cbn [Text.replace Text.smap]. rewrite IH. f_equal.
  unfold underscore_separator.
  destruct (Ascii.eqb c " ") eqn:Hsp; [reflexivity|].
  destruct (Ascii.eqb c "-") eqn:Hhy; [reflexivity|].
  reflexivity.
Qed.

Lemma smap_length f (s : string) : String.length (Text.smap f s) = String.length s.
Proof. induction s as [|c rest IH]; cbn; congruence. Qed.

Lemma smap_get f (s : string) (i : nat) :
  String.get i (Text.smap f s) = f <$> String.get i s.
Proof.
  revert i; induction s as [|c rest IH]; intros [|i]; cbn; auto.
Qed.

Lemma clean_columns_text (headers : list string) :
  clean_columns (LStr <$> headers) = Return (clean_name <$> headers).
Proof.
  induction headers as [|h rest IH]; cbn; [reflexivity|].
  cbn in IH. rewrite IH. reflexivity.
Qed.

(** C2. The cleaned name of a header is the header with every space,
    hyphen and period replaced by an underscore and every other
    character kept in place, between two backticks; and the list of
    cleaned names is the image of the headers under that one function,
    so a header has the same cleaned name wherever it is referred to. *)
Theorem clean_name_replaces_separators (col : string) :
  clean_name col = "`" +:+ Text.smap underscore_separator col +:+ "`"
  /\ String.length (Text.smap underscore_separator col) = String.length col
  /\ (forall i : nat,
        String.get i (Text.smap underscore_separator col)
        = underscore_separator <$> String.get i col)
  /\ (forall before after : list string,
        clean_columns (LStr <$> (before ++ col :: after))
        = Return ((clean_name <$> before) ++ clean_name col :: (clean_name <$> after))).
Proof.
  split; [|split; [|split]].
  - unfold clean_name. now rewrite replace_chain.
  - apply smap_length.
  - apply smap_get.
  - intros before after. rewrite clean_columns_text.
    now rewrite fmap_app, fmap_cons.
Qed.

(** ** The row value converter *)

(** C3. A missing cell ([None], NaN, NaT or NA) is converted to [None],
    the value the driver stores as NULL; the result is neither the
    empty string nor the text "nan". *)
Theorem missing_cell_is_null (val : cell) :
  Pandas.isna val = true ->
  convert_timestamp val = None
  /\ convert_timestamp val <> Some ""
  /\ convert_timestamp val <> Some "nan".
Proof.
  intros Hna. unfold convert_timestamp. rewrite Hna.
  repeat split; discriminate.
Qed.

Lemma missing_cell_is_null_nan :
  Pandas.isna CNaN = true
  /\ convert_timestamp CNaN = None
  /\ convert_timestamp CNaN <> Some ""
  /\ convert_timestamp CNaN <> Some "nan".
Proof. split; [reflexivity | apply (missing_cell_is_null CNaN); reflexivity]. Defined.












(** ** The driver calls *)

Lemma run_statement_other (sql : string) (tables : gmap string string) :
  strip_prefix "CREATE TABLE IF NOT EXISTS " sql = None ->
  run_statement sql tables = tables.
Proof. intros H. unfold run_statement. now rewrite H. Qed.

Lemma insert_sql_not_create (t : string) (cols : list string) :
  strip_prefix "CREATE TABLE IF NOT EXISTS " (insert_sql t cols) = None.
Proof. reflexivity. Qed.

(** What one [execute] does to the world, by the next entry of the
    fault script. *)
Lemma execute_run (sql : string) (p : option (list (option string))) (w : World) :
  fs (execute sql p w).2 = fs w
  /\ log (execute sql p w).2 = log w
  /\ stdout (execute sql p w).2 = stdout w
  /\ calls (execute sql p w).2 = calls w ++ [CallExecute sql p]
  /\ srv_faults (server (execute sql p w).2) = drop 1 (srv_faults (server w))
  /\ match head (srv_faults (server w)) with
     | Some (Some e) =>
         (execute sql p w).1 = Raise (Error e)
         /\ srv_tables (server (execute sql p w).2) = srv_tables (server w)
     | _ =>
         (execute sql p w).1 = Return tt
         /\ srv_tables (server (execute sql p w).2)
            = run_statement sql (srv_tables (server w))
     end.
Proof.
  run_driver. cbn [server srv_faults].
  destruct (srv_faults (server w)) as [|[e|] faults] eqn:Hf; cbn; rewrite ?Hf; auto 10.
Qed.

Lemma commit_run (c : Connection) (w : World) :
  fs (commit c w).2 = fs w
  /\ log (commit c w).2 = log w
  /\ stdout (commit c w).2 = stdout w
  /\ calls (commit c w).2 = calls w ++ [CallCommit]
  /\ srv_faults (server (commit c w).2) = drop 1 (srv_faults (server w))
  /\ srv_tables (server (commit c w).2) = srv_tables (server w)
  /\ (commit c w).1 = match head (srv_faults (server w)) with
                      | Some (Some e) => Raise (Error e)
                      | _ => Return tt
                      end.
Proof.
  run_driver. cbn [server srv_faults].
  destruct (srv_faults (server w)) as [|[e|] faults] eqn:Hf; cbn; rewrite ?Hf; auto 10.
Qed.

Lemma first_fault_step (k : nat) (faults : list (option string)) :
  first_fault (S k) faults
  = match head faults with
    | Some (Some e) => Some e
    | _ => first_fault k (drop 1 faults)
    end.
Proof.
  destruct faults as [|[e|] faults]; cbn; try reflexivity; now destruct k.
Qed.

Lemma first_fault_more (k j : nat) (faults : list (option string)) (e : string) :
  first_fault k faults = Some e -> first_fault (k + j) faults = Some e.
Proof.
  revert faults; induction k as [|k IH]; intros faults; [discriminate|].
  destruct faults as [|[e'|] faults]; cbn; auto.
Qed.

Lemma insert_rows_cons sql row rest n w :
  insert_rows sql (row :: rest) n w
  = match execute sql (Some (convert_timestamp <$> row)) w with
    | (Return _, w') => insert_rows sql rest (n + 1) w'
    | (Raise e, w') => (Raise e, w')
    end.
Proof. reflexivity. Qed.

(** The loop submits the rows in order until the server refuses one:
    [k] rows are submitted, and the world changes in nothing but the
    driver calls and the consumed part of the fault script. *)
Lemma insert_rows_run (sql : string) (rows : list (list cell)) :
  forall (n : Z) (w : World),
  exists k : nat,
    (k <= length rows)%nat
    /\ calls (insert_rows sql rows n w).2 = calls w ++ (row_call sql <$> take k rows)
    /\ fs (insert_rows sql rows n w).2 = fs w
    /\ log (insert_rows sql rows n w).2 = log w
    /\ stdout (insert_rows sql rows n w).2 = stdout w
    /\ srv_faults (server (insert_rows sql rows n w).2) = drop k (srv_faults (server w))
    /\ ((insert_rows sql rows n w).1 = Return (n + Z.of_nat (length rows))
        /\ k = length rows /\ rejection k (server w) = None
        \/ exists e, (insert_rows sql rows n w).1 = Raise (Error e)
                     /\ rejection k (server w) = Some e).
Proof.
  induction rows as [|row rest IH]; intros n w.
  - exists 0%nat. cbn. rewrite app_nil_r, Z.add_0_r. split_and!; auto.
  - rewrite insert_rows_cons.
    pose proof (execute_run sql (Some (convert_timestamp <$> row)) w)
      as (Hfs & Hlog & Hout & Hcalls & Hfaults & Hres).
    destruct (execute sql (Some (convert_timestamp <$> row)) w) as [r w1].
    cbn [fst snd] in *.
    assert (Hstep : forall k, rejection (S k) (server w)
              = match head (srv_faults (server w)) with
                | Some (Some e) => Some e
                | _ => rejection k (server w1)
                end).
    { intros k. unfold rejection. rewrite first_fault_step, Hfaults. reflexivity. }
    destruct (head (srv_faults (server w))) as [[e|]|] eqn:Hhead;
      destruct Hres as [-> _].
    + exists 1%nat. cbn [fst snd length take fmap list_fmap].
      rewrite take_0. split_and!; auto; try lia.
      right. exists e. split; [reflexivity|]. now rewrite Hstep.
    + destruct (IH (n + 1) w1) as (k & Hk & Ic & If & Il & Io & Ifa & Ires).
      exists (S k). cbn [length take fmap list_fmap].
      rewrite Ic, If, Il, Io, Ifa, Hcalls, Hfs, Hlog, Hout, Hfaults, Hstep.
      rewrite <- app_assoc, drop_drop. cbn [app Nat.add].
      split_and!; auto; try lia.
      destruct Ires as [(-> & -> & Hh)|(e & -> & Hh)].
      * left. split; [f_equal; lia|]. split; [reflexivity | exact Hh].
      * right. exists e. split; [reflexivity | exact Hh].
    + destruct (IH (n + 1) w1) as (k & Hk & Ic & If & Il & Io & Ifa & Ires).
      exists (S k). cbn [length take fmap list_fmap].
      rewrite Ic, If, Il, Io, Ifa, Hcalls, Hfs, Hlog, Hout, Hfaults, Hstep.
      rewrite <- app_assoc, drop_drop. cbn [app Nat.add].
      split_and!; auto; try lia.
      destruct Ires as [(-> & -> & Hh)|(e & -> & Hh)].
      * left. split; [f_equal; lia|]. split; [reflexivity | exact Hh].
      * right. exists e. split; [reflexivity | exact Hh].
Qed.
Lemma first_fault_split (k j : nat) (faults : list (option string)) :
  first_fault (k + j) faults
  = match first_fault k faults with
    | Some e => Some e
    | None => first_fault j (drop k faults)
    end.
Proof.
  revert faults; induction k as [|k IH]; intros faults.
  - cbn. now destruct faults.
  - destruct faults as [|[e|] faults]; cbn [Nat.add first_fault drop]; auto.
    now destruct j.
Qed.

(** *** [insert_data] *)

Lemma insert_data_eq c df cols t w :
  insert_data c df cols t w
  = match insert_rows (insert_sql t cols) (df_rows df) 0 (cursor c w).2 with
    | (Return records, w1) =>
        match commit c w1 with
        | (Return _, w2) =>
            (Return (VBool true),
             (print (inserted_message records t)
                (logging INFO (inserted_message records t) w2).2).2)
        | (Raise (Error e), w2) => insert_failed e w2
        | (Raise x, w2) => (Raise x, w2)
        end
    | (Raise (Error e), w1) => insert_failed e w1
    | (Raise x, w1) => (Raise x, w1)
    end.
Proof.
  unfold insert_data, try_except_Error, bind at 1. cbn [cursor record_call snd].
  unfold bind at 1.
  destruct (insert_rows _ _ _ _) as [[records|x] w1]; [|now destruct x].
  unfold bind at 1.
  destruct (commit c w1) as [[[]|x] w2]; [reflexivity | now destruct x].
Qed.

Lemma insert_data_run c df cols t w :
  fs (insert_data c df cols t w).2 = fs w
  /\ match rejection (S (length (df_rows df))) (server w) with
     | None =>
         (insert_data c df cols t w).1 = Return (VBool true)
         /\ calls (insert_data c df cols t w).2
            = calls w ++ CallCursor :: (row_call (insert_sql t cols) <$> df_rows df)
                      ++ [CallCommit]
         /\ log (insert_data c df cols t w).2
            = log w ++ [(INFO, inserted_message (Z.of_nat (length (df_rows df))) t)]
         /\ stdout (insert_data c df cols t w).2
            = stdout w ++ [Line (inserted_message (Z.of_nat (length (df_rows df))) t)]
     | Some e =>
         (insert_data c df cols t w).1 = Return (VBool false)
         /\ (exists (k : nat) (tail : list call),
               (k <= length (df_rows df))%nat
               /\ (tail = [] \/ tail = [CallCommit])
               /\ calls (insert_data c df cols t w).2
                  = calls w ++ CallCursor
                      :: (row_call (insert_sql t cols) <$> take k (df_rows df)) ++ tail)
         /\ log (insert_data c df cols t w).2
            = log w ++ [(ERROR, "Error inserting data: " +:+ e)]
         /\ stdout (insert_data c df cols t w).2
            = stdout w ++ [Line ("Error inserting data: " +:+ e)]
     end.
Proof.
  rewrite insert_data_eq.
  set (w0 := (cursor c w).2).
  destruct (insert_rows_run (insert_sql t cols) (df_rows df) 0 w0)
    as (k & Hk & Ic & If & Il & Io & Ifa & Ires).
  change (server w0) with (server w) in *.
  change (fs w0) with (fs w) in *. change (log w0) with (log w) in *.
  change (stdout w0) with (stdout w) in *.
  change (calls w0) with (calls w ++ [CallCursor]) in *.
  destruct (insert_rows _ _ 0 w0) as [r w1]. cbn [fst snd] in *.
  replace (S (length (df_rows df))) with (length (df_rows df) + 1)%nat by lia.
  unfold rejection in *. rewrite first_fault_split.
  destruct Ires as [(-> & -> & Hh)|(e & -> & Hh)].
  - rewrite Hh, firstn_all in *. rewrite Z.add_0_l.
    pose proof (commit_run c w1) as (Cfs & Clog & Cout & Ccalls & Cfa & _ & Cres).
    rewrite first_fault_step, <- Ifa. cbn [first_fault].
    destruct (commit c w1) as [r w2]. cbn [fst snd] in *. subst r.
    destruct (head (srv_faults (server w1))) as [[e|]|]; cbn;
      rewrite ?Cfs, ?Clog, ?Cout, ?Ccalls, ?If, ?Il, ?Io, ?Ic, <- ?app_assoc;
      split_and!; auto.
    exists (length (df_rows df)), [CallCommit].
    rewrite firstn_all. split_and!; auto.
  - replace (length (df_rows df)) with (k + (length (df_rows df) - k))%nat at 1 by lia.
    rewrite (first_fault_more _ _ _ _ Hh). cbn.
    rewrite If, Il, Io, Ic, <- ?app_assoc. split_and!; auto.
    exists k, []. rewrite app_nil_r. split_and!; auto.
Qed.
(** *** [create_table_if_not_exists] *)

Lemma sync_eq c path t w :
  create_table_if_not_exists c path t w
  = match fs w !! path with
    | Some (ExcelFile df) =>
        match clean_columns (df_columns df) with
        | Return cols =>
            match execute (create_table_sql t cols) None
                    (cursor c (after_read df w)).2 with
            | (Return _, w2) =>
                match commit c w2 with
                | (Return _, w3) =>
                    (Return (Some (df, cols)),
                     (logging INFO ("Table " +:+ t +:+ " created or already exists") w3).2)
                | (Raise (Error e), w3) => sync_failed e w3
                | (Raise x, w3) => (Raise x, w3)
                end
            | (Raise (Error e), w2) => sync_failed e w2
            | (Raise x, w2) => (Raise x, w2)
            end
        | Raise (Error e) => sync_failed e (after_read df w)
        | Raise x => (Raise x, after_read df w)
        end
    | Some _ => (Raise (ValueError "Excel file format cannot be determined"), w)
    | None => (Raise (FileNotFoundError path), w)
    end.
Proof.
  unfold create_table_if_not_exists, try_except_Error, bind at 1, read_excel.
  destruct (fs w !! path) as [[ini|df|raw]|]; try reflexivity.
  unfold bind at 1. cbn [show snd]. unfold bind at 1. cbn [logging snd].
  unfold bind at 1, lift.
  destruct (clean_columns (df_columns df)) as [cols|x]; [|now destruct x].
  unfold bind at 1. cbn [cursor record_call snd]. unfold bind at 1.
  unfold after_read. cbn [show logging cursor record_call snd].
  destruct (execute _ _ _) as [[[]|x] w2]; [|now destruct x].
  unfold bind at 1.
  destruct (commit c w2) as [[[]|x] w3]; [reflexivity | now destruct x].
Qed.

(** The synchronization when the sheet is read and its headers are
    text, by whether the server accepts the statement and the commit. *)
Lemma sync_run c path t w df cols :
  fs w !! path = Some (ExcelFile df) ->
  clean_columns (df_columns df) = Return cols ->
  fs (create_table_if_not_exists c path t w).2 = fs w
  /\ srv_faults (server (create_table_if_not_exists c path t w).2)
     = drop (match rejection 1 (server w) with None => 2 | Some _ => 1 end)
            (srv_faults (server w))
  /\ srv_tables (server (create_table_if_not_exists c path t w).2)
     = match rejection 1 (server w) with
       | None => run_statement (create_table_sql t cols) (srv_tables (server w))
       | Some _ => srv_tables (server w)
       end
  /\ match rejection 2 (server w) with
     | None =>
         (create_table_if_not_exists c path t w).1 = Return (Some (df, cols))
         /\ calls (create_table_if_not_exists c path t w).2
            = calls w ++ [CallCursor; CallExecute (create_table_sql t cols) None; CallCommit]
         /\ log (create_table_if_not_exists c path t w).2
            = log w ++ [(INFO, "DataFrame info: None");
                        (INFO, "Table " +:+ t +:+ " created or already exists")]
         /\ stdout (create_table_if_not_exists c path t w).2
            = stdout w ++ [FrameSummary df]
     | Some e =>
         (create_table_if_not_exists c path t w).1 = Return None
         /\ (exists tail : list call,
               (tail = [] \/ tail = [CallCommit])
               /\ calls (create_table_if_not_exists c path t w).2
                  = calls w ++ CallCursor :: CallExecute (create_table_sql t cols) None :: tail)
         /\ log (create_table_if_not_exists c path t w).2
            = log w ++ [(INFO, "DataFrame info: None");
                        (ERROR, "Error creating table: " +:+ e)]
         /\ stdout (create_table_if_not_exists c path t w).2
            = stdout w ++ [FrameSummary df; Line ("Error creating table: " +:+ e)]
     end.
Proof.
  intros Hfile Hcols. rewrite sync_eq, Hfile, Hcols.
  set (w1 := (cursor c (after_read df w)).2).
  pose proof (execute_run (create_table_sql t cols) None w1)
    as (Efs & Elog & Eout & Ecalls & Efa & Eres).
  change (server w1) with (server w) in *.
  change (fs w1) with (fs w) in *.
  change (log w1) with (log w ++ [(INFO, "DataFrame info: None")]) in *.
  change (stdout w1) with (stdout w ++ [FrameSummary df]) in *.
  change (calls w1) with (calls w ++ [CallCursor]) in *.
  destruct (execute _ None w1) as [r w2]. cbn [fst snd] in *.
  unfold rejection. rewrite (first_fault_split 1 1), !first_fault_step.
  cbn [first_fault].
  destruct (head (srv_faults (server w))) as [[e|]|] eqn:Hhead;
    destruct Eres as [-> Etab].
  - cbn. rewrite Efs, Elog, Eout, Ecalls, Efa, Etab, <- !app_assoc.
    split_and!; auto. exists []. auto.
  - pose proof (commit_run c w2) as (Cfs & Clog & Cout & Ccalls & Cfa & Ctab & Cres).
    rewrite Efa in Cres, Cfa.
    destruct (commit c w2) as [r w3]. cbn [fst snd] in *. subst r.
    destruct (head (drop 1 (srv_faults (server w)))) as [[e|]|]; cbn;
      rewrite ?Cfs, ?Clog, ?Cout, ?Ccalls, ?Cfa, ?Ctab, ?drop_drop,
              ?Efs, ?Elog, ?Eout, ?Ecalls, ?Etab, <- ?app_assoc;
      split_and!; auto.
    exists [CallCommit]. auto.
  - pose proof (commit_run c w2) as (Cfs & Clog & Cout & Ccalls & Cfa & Ctab & Cres).
    rewrite Efa in Cres, Cfa.
    destruct (commit c w2) as [r w3]. cbn [fst snd] in *. subst r.
    destruct (head (drop 1 (srv_faults (server w)))) as [[e|]|]; cbn;
      rewrite ?Cfs, ?Clog, ?Cout, ?Ccalls, ?Cfa, ?Ctab, ?drop_drop,
              ?Efs, ?Elog, ?Eout, ?Ecalls, ?Etab, <- ?app_assoc;
      split_and!; auto.
    exists [CallCommit]. auto.
Qed.
(** *** [connect_to_database] *)

Lemma connect_run cfg w :
  fs (connect_to_database cfg w).2 = fs w
  /\ server (connect_to_database cfg w).2 = server w
  /\ calls (connect_to_database cfg w).2
     = calls w ++ [CallConnect (host cfg) (database cfg) (user cfg) (password cfg)]
  /\ match srv_refuse (server w) with
     | Some (Refused e) =>
         (connect_to_database cfg w).1 = Return None
         /\ log (connect_to_database cfg w).2
            = log w ++ [(ERROR, "Error connecting to MySQL database: " +:+ e)]
         /\ stdout (connect_to_database cfg w).2
            = stdout w ++ [Line ("Error connecting to MySQL database: " +:+ e)]
     | Some (Unencodable msg) =>
         (connect_to_database cfg w).1 = Raise (UnicodeError msg)
         /\ log (connect_to_database cfg w).2 = log w
         /\ stdout (connect_to_database cfg w).2 = stdout w
     | None =>
         stdout (connect_to_database cfg w).2 = stdout w
         /\ if srv_alive (server w)
            then (connect_to_database cfg w).1 = Return (Some MySQLConnection)
                 /\ log (connect_to_database cfg w).2
                    = log w ++ [(INFO, "Connected to MySQL database")]
            else (connect_to_database cfg w).1 = Return None
                 /\ log (connect_to_database cfg w).2 = log w
     end.
Proof.
  unfold connect_to_database, try_except_Error, mysql_connect, is_connected.
  run_driver. cbn [server].
  destruct (srv_refuse (server w)) as [[e|msg]|]; cbn; [auto 10 | auto 10 |].
  destruct (srv_alive (server w)); cbn; auto 10.
Qed.

(** *** [read_config] *)

Lemma read_config_missing path w :
  fs w !! path = None ->
  read_config path w
  = (Raise (SystemExit 1),
     {| fs := <[path := IniFile default_config]> (fs w);
        log := log w ++ [(INFO, "Created default config file: " +:+ path)];
        stdout := stdout w
                  ++ [Line ("Created default config file: " +:+ path);
                      Line "Please update the config file with your database credentials and try again."];
        server := server w;
        calls := calls w |}).
Proof.
  intros Hnone. unfold read_config, path_exists, bind at 1. rewrite Hnone.
  cbn. now rewrite <- app_assoc.
Qed.

Lemma read_config_loaded path w c :
  fs w !! path = Some (IniFile c) ->
  read_config path w = (loaded c, w).
Proof.
  intros Hfile.
  unfold read_config, path_exists, configparser_read, ini_get, bind, ret, raise.
  cbv beta iota. rewrite Hfile.
  replace (bool_decide (is_Some (Some (IniFile c)))) with true by reflexivity.
  cbv beta iota. cbn [negb]. cbv beta iota. rewrite Hfile. cbv beta iota.
  unfold loaded.
  destruct (ini_value c "DATABASE" "host"); [|reflexivity].
  destruct (ini_value c "DATABASE" "database"); [|reflexivity].
  destruct (ini_value c "DATABASE" "user"); [|reflexivity].
  destruct (ini_value c "DATABASE" "password"); [|reflexivity].
  destruct (ini_value c "DATABASE" "table"); [|reflexivity].
  destruct (ini_value c "FILES" "excel_file"); reflexivity.
Qed.

Lemma settings_loaded (c : ini) : settings c = got (loaded c).
Proof.
  unfold settings, loaded.
  destruct (ini_value c "DATABASE" "host"); [|reflexivity].
  destruct (ini_value c "DATABASE" "database"); [|reflexivity].
  destruct (ini_value c "DATABASE" "user"); [|reflexivity].
  destruct (ini_value c "DATABASE" "password"); [|reflexivity].
  destruct (ini_value c "DATABASE" "table"); [|reflexivity].
  destruct (ini_value c "FILES" "excel_file"); reflexivity.
Qed.

Lemma read_config_present path w c cfg :
  fs w !! path = Some (IniFile c) ->
  settings c = Some cfg ->
  read_config path w = (Return cfg, w).
Proof.
  intros Hfile Hset. rewrite (read_config_loaded path w c Hfile).
  rewrite settings_loaded in Hset.
  destruct (loaded c) as [cfg'|e]; [|discriminate]. now injection Hset as ->.
Qed.

(** *** [main] *)

Lemma main_eq w :
  main w
  = match read_config "config.ini" (started w) with
    | (Return cfg, w1) =>
        match connect_to_database cfg w1 with
        | (Return (Some c), w2) =>
            match create_table_if_not_exists c (excel_file cfg) (table cfg) w2 with
            | (Return (Some (df, cols)), w3) => transfer c cfg df cols w3
            | (Return None, w3) => (Return tt, (close c w3).2)
            | (Raise x, w3) => (Raise x, w3)
            end
        | (Return None, w2) => (Return tt, w2)
        | (Raise x, w2) => (Raise x, w2)
        end
    | (Raise x, w1) => (Raise x, w1)
    end.
Proof.
  unfold main, started. unfold bind at 1. cbn [print show fst snd].
  unfold bind at 1. cbn [logging fst snd]. unfold bind at 1.
  destruct (read_config _ _) as [[cfg|x] w1]; [|reflexivity].
  unfold bind at 1.
  destruct (connect_to_database cfg w1) as [[[c|]|x] w2]; try reflexivity.
  unfold bind at 1.
  destruct (create_table_if_not_exists _ _ _ _) as [[[[df cols]|]|x] w3];
    reflexivity.
Qed.
Lemma log_dtypes_run (cols : list (label * string)) :
  forall w : World,
    (log_dtypes cols w).1 = Return tt
    /\ fs (log_dtypes cols w).2 = fs w
    /\ log (log_dtypes cols w).2 = log w ++ (dtype_line <$> cols)
    /\ stdout (log_dtypes cols w).2 = stdout w
    /\ server (log_dtypes cols w).2 = server w
    /\ calls (log_dtypes cols w).2 = calls w.
Proof.
  induction cols as [|[col dtype] rest IH]; intros w.
  - cbn. rewrite app_nil_r. auto 10.
  - cbn [log_dtypes]. unfold bind at 1 2 3 4 5 6. cbn [logging].
    destruct (IH {| fs := fs w; log := log w ++ [(INFO, Pandas.label_str col +:+ ": " +:+ dtype)];
                    stdout := stdout w; server := server w; calls := calls w |})
      as (-> & -> & -> & -> & -> & ->).
    cbn. rewrite <- app_assoc. auto 10.
Qed.

Lemma wrap_up_run c success w :
  (wrap_up c success w).1 = Return tt
  /\ fs (wrap_up c success w).2 = fs w
  /\ server (wrap_up c success w).2 = server w
  /\ calls (wrap_up c success w).2 = calls w ++ [CallClose]
  /\ stdout (wrap_up c success w).2 = stdout w ++ [Line (verdict success)].
Proof.
  unfold wrap_up, verdict. run_driver. destruct (truthy success); cbn; auto 10.
Qed.

Lemma transfer_eq c cfg df cols w :
  transfer c cfg df cols w
  = match log_dtypes (df_cols df) (logging INFO "DataFrame data types:" w).2 with
    | (Return _, w1) =>
        match insert_data c df cols (table cfg) w1 with
        | (Return success, w2) => wrap_up c success w2
        | (Raise x, w2) => (Raise x, w2)
        end
    | (Raise x, w1) => (Raise x, w1)
    end.
Proof.
  unfold transfer. unfold bind at 1. cbn [logging snd]. unfold bind at 1.
  destruct (log_dtypes _ _) as [[[]|x] w1]; reflexivity.
Qed.

(** The tail of [main]: it returns normally whatever the server does,
    closes the connection last, and submits what [insert_data] does. *)
Lemma transfer_run c cfg df cols w :
  exists w1 : World,
    server w1 = server w /\ calls w1 = calls w /\ stdout w1 = stdout w
    /\ (transfer c cfg df cols w).1 = Return tt
    /\ fs (transfer c cfg df cols w).2 = fs w
    /\ calls (transfer c cfg df cols w).2
       = calls (insert_data c df cols (table cfg) w1).2 ++ [CallClose]
    /\ stdout (transfer c cfg df cols w).2
       = stdout (insert_data c df cols (table cfg) w1).2
         ++ [Line (verdict (VBool (bool_decide
                     (rejection (S (length (df_rows df))) (server w) = None))))].
Proof.
  rewrite transfer_eq.
  destruct (log_dtypes_run (df_cols df) (logging INFO "DataFrame data types:" w).2)
    as (Hr & Hfs & _ & Hout & Hsrv & Hcalls).
  destruct (log_dtypes _ _) as [r w1]. cbn [fst snd logging fs stdout server calls] in *.
  subst r. exists w1.
  destruct (insert_data_run c df cols (table cfg) w1) as (Ifs & Ires).
  rewrite Hsrv in Ires.
  destruct (insert_data c df cols (table cfg) w1) as [r w2]. cbn [fst snd] in *.
  assert (Hflag : r = Return (VBool (bool_decide
            (rejection (S (length (df_rows df))) (server w) = None)))).
  { destruct (rejection _ _) as [e|]; destruct Ires as [-> _]; reflexivity. }
  subst r.
  destruct (wrap_up_run c (VBool (bool_decide
              (rejection (S (length (df_rows df))) (server w) = None))) w2)
    as (-> & -> & _ & -> & ->).
  rewrite Ifs, Hfs. split_and!; auto.
Qed.
(** ** The server's view of the create statement *)

Lemma append_assoc (a b c : string) : (a +:+ b) +:+ c = a +:+ (b +:+ c).
Proof.
  induction a as [|x a IH]; [reflexivity|].
  change (String x ((a +:+ b) +:+ c) = String x (a +:+ (b +:+ c))). now rewrite IH.
Qed.

Lemma strip_prefix_append (p rest : string) : strip_prefix p (p +:+ rest) = Some rest.
Proof.
  induction p as [|x p IH]; [now destruct rest|].
  change (strip_prefix (String x p) (String x (p +:+ rest)) = Some rest).
  cbn [strip_prefix]. now rewrite Ascii.eqb_refl.
Qed.

Lemma first_word_name (t rest : string) :
  (first_word (t +:+ String " " rest)).1 = (first_word t).1.
Proof.
  induction t as [|x t IH]; [reflexivity|].
  change ((first_word (String x (t +:+ String " " rest))).1 = (first_word (String x t)).1).
  cbn [first_word]. destruct (Ascii.eqb x " "); [reflexivity|].
  destruct (first_word (t +:+ String " " rest)) as [n1 r1].
  destruct (first_word t) as [n2 r2]. cbn in *. now rewrite IH.
Qed.

(** The create statement starts with CREATE TABLE IF NOT EXISTS and
    the table name. *)
Lemma create_table_sql_text (t : string) (cols : list string) :
  create_table_sql t cols
  = "CREATE TABLE IF NOT EXISTS "
    +:+ (t +:+ String " " ("(id INT AUTO_INCREMENT PRIMARY KEY, "
                           +:+ Text.join ", " ((fun col => col +:+ " TEXT") <$> cols)
                           +:+ ")")).
Proof.
  unfold create_table_sql. rewrite !append_assoc. reflexivity.
Qed.

(** The server creates the table named in the statement unless a table
    of that name exists. *)
Lemma run_create (t : string) (cols : list string) (tables : gmap string string) :
  exists defs : string,
    run_statement (create_table_sql t cols) tables
    = match tables !! (first_word t).1 with
      | Some _ => tables
      | None => <[(first_word t).1 := defs]> tables
      end.
Proof.
  unfold run_statement. rewrite create_table_sql_text, strip_prefix_append.
  pose proof (first_word_name t
    ("(id INT AUTO_INCREMENT PRIMARY KEY, "
     +:+ Text.join ", " ((fun col => col +:+ " TEXT") <$> cols) +:+ ")")) as Hname.
  destruct (first_word (t +:+ _)) as [name defs]. cbn [fst] in Hname. subst name.
  now exists defs.
Qed.

Lemma run_create_twice (t : string) (cols cols' : list string)
    (tables : gmap string string) :
  run_statement (create_table_sql t cols')
    (run_statement (create_table_sql t cols) tables)
  = run_statement (create_table_sql t cols) tables.
Proof.
  destruct (run_create t cols tables) as [defs ->].
  destruct (run_create t cols'
              (match tables !! (first_word t).1 with
               | Some _ => tables
               | None => <[(first_word t).1 := defs]> tables
               end)) as [defs' ->].
  destruct (tables !! (first_word t).1) as [d|] eqn:Hd.
  - now rewrite Hd.
  - now rewrite lookup_insert_eq.
Qed.
(** ** Inversion of a successful synchronization *)

Lemma clean_columns_inv (labels : list label) :
  forall cols : list string,
    clean_columns labels = Return cols ->
    exists headers : list string,
      labels = LStr <$> headers /\ cols = clean_name <$> headers.
Proof.
  induction labels as [|[h|z] rest IH]; intros cols Hc; cbn in Hc.
  - injection Hc as <-. now exists [].
  - destruct (clean_columns rest) as [names|x]; [|discriminate].
    injection Hc as <-. destruct (IH names eq_refl) as (hs & -> & ->).
    now exists (h :: hs).
  - discriminate.
Qed.

Lemma sync_success_inv c path t w df cols :
  (create_table_if_not_exists c path t w).1 = Return (Some (df, cols)) ->
  fs w !! path = Some (ExcelFile df)
  /\ clean_columns (df_columns df) = Return cols
  /\ rejection 2 (server w) = None.
Proof.
  intros Hok.
  assert (Hfile : fs w !! path = Some (ExcelFile df)
                  /\ clean_columns (df_columns df) = Return cols).
  { rewrite sync_eq in Hok.
    destruct (fs w !! path) as [[ini|df'|raw]|]; try discriminate Hok.
    destruct (clean_columns (df_columns df')) as [cols'|x] eqn:Hcols.
    - destruct (execute _ _ _) as [[[]|x] w2].
      + destruct (commit c w2) as [[[]|x] w3].
        * cbn in Hok. injection Hok as Hdf Hc. subst df' cols'. auto.
        * destruct x; discriminate Hok.
      + destruct x; discriminate Hok.
    - destruct x; discriminate Hok. }
  destruct Hfile as [Hfile Hcols]. split_and!; auto.
  destruct (sync_run c path t w df cols Hfile Hcols) as (_ & _ & _ & Hres).
  destruct (rejection 2 (server w)) as [e|]; [|reflexivity].
  destruct Hres as [Hnone _]. rewrite Hnone in Hok. discriminate.
Qed.

(** Whatever happens, the synchronization leaves the tables as they
    are or as the create statement for some column list leaves them. *)
Lemma sync_tables c path t w :
  srv_tables (server (create_table_if_not_exists c path t w).2) = srv_tables (server w)
  \/ exists cols : list string,
       srv_tables (server (create_table_if_not_exists c path t w).2)
       = run_statement (create_table_sql t cols) (srv_tables (server w)).
Proof.
  destruct (fs w !! path) as [[ini|df|raw]|] eqn:Hfile.
  2: destruct (clean_columns (df_columns df)) as [cols|x] eqn:Hcols.
  2: { destruct (sync_run c path t w df cols Hfile Hcols) as (_ & _ & Htab & _).
       rewrite Htab. destruct (rejection 1 (server w)); eauto. }
  all: left; rewrite sync_eq, Hfile; try rewrite Hcols; try reflexivity.
  destruct x; reflexivity.
Qed.

(** ** Placeholders *)

Lemma join_replicate_step (sep x : string) (n : nat) :
  Text.join sep (replicate (S (S n)) x) = x +:+ sep +:+ Text.join sep (replicate (S n) x).
Proof. reflexivity. Qed.

Lemma placeholders_count (n : nat) :
  Text.occurrences "%s" (Text.join ", " (replicate n "%s")) = n.
Proof.
  induction n as [|[|n] IH]; [reflexivity | reflexivity |].
  rewrite join_replicate_step.
  change ("%s" +:+ ", " +:+ Text.join ", " (replicate (S n) "%s"))
    with (String "%" (String "s" (String "," (String " "
            (Text.join ", " (replicate (S n) "%s")))))).
  cbn [Text.occurrences String.prefix]. rewrite IH. reflexivity.
Qed.
(** ** The row inserter *)

(** C1, as the code has it. When every row insert and the commit are
    accepted, [insert_data] returns [True] and reports the number of
    rows of the data set in the line it logs and prints; it returns
    [False] only when the server refused a row insert or the commit,
    and it returns one of the two in every case. *)
Theorem insert_data_reports_count c df cols t w :
  (rejection (S (length (df_rows df))) (server w) = None ->
     (insert_data c df cols t w).1 = Return (VBool true)
     /\ log (insert_data c df cols t w).2
        = log w ++ [(INFO, "Successfully inserted "
                           +:+ Text.of_Z (Z.of_nat (length (df_rows df)))
                           +:+ " records into " +:+ t)]
     /\ stdout (insert_data c df cols t w).2
        = stdout w ++ [Line ("Successfully inserted "
                             +:+ Text.of_Z (Z.of_nat (length (df_rows df)))
                             +:+ " records into " +:+ t)])
  /\ ((insert_data c df cols t w).1 = Return (VBool false) ->
        exists e : string, rejection (S (length (df_rows df))) (server w) = Some e)
  /\ (exists b : bool, (insert_data c df cols t w).1 = Return (VBool b)).
Proof.
  destruct (insert_data_run c df cols t w) as [_ Hrun].
  destruct (rejection (S (length (df_rows df))) (server w)) as [e|].
  - destruct Hrun as (Hres & _). split_and!.
    + discriminate.
    + intros _. now exists e.
    + exists false. exact Hres.
  - destruct Hrun as (Hres & _ & Hlog & Hout). split_and!.
    + intros _. split_and!; assumption.
    + rewrite Hres. discriminate.
    + exists true. exact Hres.
Qed.

Lemma insert_data_reports_count_two_records :
  rejection 3 (server (configured quiet_server)) = None
  /\ (insert_data MySQLConnection two_records form_columns "form_responses"
        (configured quiet_server)).1 = Return (VBool true)
  /\ stdout (insert_data MySQLConnection two_records form_columns "form_responses"
               (configured quiet_server)).2
     = [Line "Successfully inserted 2 records into form_responses"].
Proof.
  split; [reflexivity|].
  destruct (proj1 (insert_data_reports_count MySQLConnection two_records
                     form_columns "form_responses" (configured quiet_server))
                  eq_refl) as (Hres & _ & Hout).
  split; [exact Hres | exact Hout].
Defined.

(** C1 as stated fails: after two accepted inserts and an accepted
    commit the function returns [True], which is not the count 2, not
    even under Python's [==]. *)
Lemma insert_data_returns_flag_not_count :
  rejection 3 (server (configured quiet_server)) = None
  /\ Z.of_nat (length (df_rows two_records)) = 2
  /\ (insert_data MySQLConnection two_records form_columns "form_responses"
        (configured quiet_server)).1 = Return (VBool true)
  /\ (insert_data MySQLConnection two_records form_columns "form_responses"
        (configured quiet_server)).1 <> Return (VInt 2)
  /\ py_eq (VBool true) (VInt 2) = false.
Proof.
  split_and!; try reflexivity. vm_compute. discriminate.
Qed.

(** The driver calls of [insert_data]: a cursor, the rows in order up
    to the first refused call, and the commit when every row went
    through. *)
Lemma insert_data_calls c df cols t w :
  (exists (k : nat) (tail : list call),
     (k <= length (df_rows df))%nat
     /\ (tail = [] \/ tail = [CallCommit])
     /\ calls (insert_data c df cols t w).2
        = calls w ++ CallCursor
            :: (row_call (insert_sql t cols) <$> take k (df_rows df)) ++ tail)
  /\ (rejection (S (length (df_rows df))) (server w) = None ->
        calls (insert_data c df cols t w).2
        = calls w ++ CallCursor
            :: (row_call (insert_sql t cols) <$> df_rows df) ++ [CallCommit]).
Proof.
  destruct (insert_data_run c df cols t w) as [_ Hrun].
  destruct (rejection (S (length (df_rows df))) (server w)) as [e|].
  - destruct Hrun as (_ & Hcalls & _). split; [exact Hcalls | discriminate].
  - destruct Hrun as (_ & Hcalls & _). split; [|intros _; exact Hcalls].
    exists (length (df_rows df)), [CallCommit]. rewrite firstn_all. auto.
Qed.

(** C8. [insert_data] issues one statement text, built from the table
    name and the column list alone: INSERT INTO, the column list, and
    one [%s] per column.  Every row is submitted with that text and
    with its converted cells as parameters, in the order of the data
    set and of the columns; submission stops at the first refused call,
    and when nothing is refused all rows are submitted and one commit
    follows. *)
Theorem insert_data_parameterized c df cols t w :
  insert_sql t cols
  = "INSERT INTO " +:+ t +:+ " (" +:+ Text.join ", " cols +:+ ") VALUES ("
    +:+ Text.join ", " (replicate (length cols) "%s") +:+ ")"
  /\ (exists (k : nat) (tail : list call),
        (k <= length (df_rows df))%nat
        /\ (tail = [] \/ tail = [CallCommit])
        /\ calls (insert_data c df cols t w).2
           = calls w ++ CallCursor
               :: ((fun row => CallExecute (insert_sql t cols)
                                 (Some (convert_timestamp <$> row)))
                   <$> take k (df_rows df)) ++ tail)
  /\ (rejection (S (length (df_rows df))) (server w) = None ->
        calls (insert_data c df cols t w).2
        = calls w ++ CallCursor
            :: ((fun row => CallExecute (insert_sql t cols)
                              (Some (convert_timestamp <$> row)))
                <$> df_rows df) ++ [CallCommit]).
Proof.
  split; [reflexivity|]. exact (insert_data_calls c df cols t w).
Qed.

Lemma insert_data_parameterized_two_records :
  rejection 3 (server (configured quiet_server)) = None
  /\ calls (insert_data MySQLConnection two_records form_columns "form_responses"
              (configured quiet_server)).2
     = [ CallCursor;
         CallExecute
           "INSERT INTO form_responses (`Full_Name`, `Score_1`, `Submitted_On`) VALUES (%s, %s, %s)"
           (Some [Some "Jane Doe"; Some "42.0"; Some "2024-01-02 03:04:05"]);
         CallExecute
           "INSERT INTO form_responses (`Full_Name`, `Score_1`, `Submitted_On`) VALUES (%s, %s, %s)"
           (Some [Some "John Roe"; None; Some "2024-01-02 03:04:05"]);
         CallCommit ].
Proof.
  split; [reflexivity|].
  exact (proj2 (proj2 (insert_data_parameterized MySQLConnection two_records
                         form_columns "form_responses" (configured quiet_server)))
               eq_refl).
Defined.
(** ** Column alignment *)

(** A run of [main] in which nothing fails: the driver calls, from the
    connection to its close. *)
Lemma main_success w ini cfg df cols :
  fs w !! "config.ini" = Some (IniFile ini) ->
  settings ini = Some cfg ->
  srv_refuse (server w) = None ->
  srv_alive (server w) = true ->
  fs w !! excel_file cfg = Some (ExcelFile df) ->
  clean_columns (df_columns df) = Return cols ->
  rejection (2 + S (length (df_rows df))) (server w) = None ->
  (main w).1 = Return tt
  /\ calls (main w).2
     = calls w
       ++ [ CallConnect (host cfg) (database cfg) (user cfg) (password cfg);
            CallCursor;
            CallExecute (create_table_sql (table cfg) cols) None;
            CallCommit;
            CallCursor ]
       ++ (row_call (insert_sql (table cfg) cols) <$> df_rows df)
       ++ [CallCommit; CallClose].
Proof.
  intros Hini Hset Hlogin Halive Hfile Hcols Hacc.
  unfold rejection in Hacc. rewrite first_fault_split in Hacc.
  destruct (first_fault 2 (srv_faults (server w))) as [e|] eqn:Hacc2; [discriminate|].
  assert (Hacc1 : first_fault 1 (srv_faults (server w)) = None).
  { change 2%nat with (1 + 1)%nat in Hacc2. rewrite first_fault_split in Hacc2.
    destruct (first_fault 1 (srv_faults (server w))); [discriminate | reflexivity]. }
  rewrite main_eq.
  rewrite (read_config_present "config.ini" (started w) ini cfg Hini Hset).
  destruct (connect_run cfg (started w)) as (Cfs & Csrv & Ccalls & Cres).
  change (server (started w)) with (server w) in *.
  change (fs (started w)) with (fs w) in *.
  change (calls (started w)) with (calls w) in *.
  rewrite Hlogin, Halive in Cres. destruct Cres as (_ & Cr & _).
  destruct (connect_to_database cfg (started w)) as [r w2]. cbn [fst snd] in *.
  subst r.
  assert (Hfile2 : fs w2 !! excel_file cfg = Some (ExcelFile df)) by now rewrite Cfs.
  destruct (sync_run MySQLConnection (excel_file cfg) (table cfg) w2 df cols Hfile2 Hcols)
    as (_ & Sfaults & _ & Hrun).
  unfold rejection in Sfaults, Hrun. rewrite Csrv in Sfaults, Hrun.
  rewrite Hacc1 in Sfaults. rewrite Hacc2 in Hrun.
  destruct Hrun as (Sres & Scalls & _).
  destruct (create_table_if_not_exists _ _ _ w2) as [r w3]. cbn [fst snd] in *.
  subst r.
  destruct (transfer_run MySQLConnection cfg df cols w3)
    as (w4 & Tsrv & Tcalls & _ & Tres & _ & Tmade & _).
  destruct (insert_data_calls MySQLConnection df cols (table cfg) w4) as [_ Hall].
  unfold rejection in Hall. rewrite Tsrv, Sfaults in Hall.
  rewrite (Hall Hacc) in Tmade.
  split; [exact Tres|].
  rewrite Tmade, Tcalls, Scalls, Ccalls.
  repeat (rewrite <- app_assoc; cbn [app]). reflexivity.
Qed.

(** ** Markers in the statement text *)

Lemma marker_here (s : string) :
  String.prefix "%s" s
  = match s with
    | String a (String b _) => Ascii.eqb a "%" && Ascii.eqb b "s"
    | _ => false
    end.
Proof.
  destruct s as [|a [|b rest]]; cbn [String.prefix].
  - reflexivity.
  - destruct (ascii_dec "%" a); reflexivity.
  - destruct (ascii_dec "%" a) as [<-|Ha].
    + destruct (ascii_dec "s" b) as [<-|Hb]; [now destruct rest|].
      cbn. symmetry. apply Ascii.eqb_neq. congruence.
    + symmetry. apply andb_false_iff. left. apply Ascii.eqb_neq. congruence.
Qed.

Lemma markers_cons (c : ascii) (s : string) :
  markers (String c s)
  = ((if Ascii.eqb c "%" && starts_with_s s then 1 else 0) + markers s)%nat.
Proof.
  unfold markers. cbn [Text.occurrences]. rewrite marker_here.
  destruct s as [|b rest]; cbn [starts_with_s]; [now rewrite andb_false_r|].
  reflexivity.
Qed.

Lemma markers_append (a b : string) :
  markers (a +:+ b) = (markers a + markers b + straddles a b)%nat.
Proof.
  induction a as [|c a IH]; [unfold straddles; cbn; change ("" +:+ b) with b; lia|].
  change (String c a +:+ b) with (String c (a +:+ b)).
  rewrite !markers_cons, IH. unfold straddles.
  destruct a as [|d a'].
  - change ("" +:+ b) with b. cbn [starts_with_s ends_with_percent].
    rewrite andb_false_r. destruct (Ascii.eqb c "%" && starts_with_s b); cbn; lia.
  - change (String d a' +:+ b) with (String d (a' +:+ b)).
    cbn [starts_with_s]. change (ends_with_percent (String c (String d a')))
      with (ends_with_percent (String d a')). lia.
Qed.

Lemma markers_smap (f : ascii -> ascii) (s : string) :
  (forall c, Ascii.eqb (f c) "%" = Ascii.eqb c "%") ->
  (forall c, Ascii.eqb (f c) "s" = Ascii.eqb c "s") ->
  markers (Text.smap f s) = markers s.
Proof.
  intros Hp Hs. induction s as [|c s IH]; [reflexivity|].
  cbn [Text.smap]. rewrite !markers_cons, IH, Hp. f_equal.
  destruct s as [|d s']; cbn [Text.smap starts_with_s]; [reflexivity|].
  now rewrite Hs.
Qed.

Lemma underscore_keeps_percent (c : ascii) :
  Ascii.eqb (underscore_separator c) "%" = Ascii.eqb c "%".
Proof.
  unfold underscore_separator.
  destruct (Ascii.eqb_spec c " ") as [->|_]; [reflexivity|].
  destruct (Ascii.eqb_spec c "-") as [->|_]; [reflexivity|].
  destruct (Ascii.eqb_spec c ".") as [->|_]; reflexivity.
Qed.

Lemma underscore_keeps_s (c : ascii) :
  Ascii.eqb (underscore_separator c) "s" = Ascii.eqb c "s".
Proof.
  unfold underscore_separator.
  destruct (Ascii.eqb_spec c " ") as [->|_]; [reflexivity|].
  destruct (Ascii.eqb_spec c "-") as [->|_]; [reflexivity|].
  destruct (Ascii.eqb_spec c ".") as [->|_]; reflexivity.
Qed.

(** A cleaned name holds the markers of its header, no more. *)
Lemma markers_clean_name (h : string) : markers (clean_name h) = markers h.
Proof.
  unfold clean_name. rewrite replace_chain.
  change ("`" +:+ Text.smap underscore_separator h +:+ "`")
    with (String "`" (Text.smap underscore_separator h +:+ "`")).
  rewrite markers_cons, markers_append.
  rewrite (markers_smap _ h underscore_keeps_percent underscore_keeps_s).
  unfold straddles. cbn [starts_with_s Ascii.eqb Bool.eqb andb].
  rewrite andb_false_r. cbn. lia.
Qed.

Lemma clean_name_edges (h : string) :
  starts_with_s (clean_name h) = false /\ ends_with_percent (clean_name h) = false.
Proof.
  unfold clean_name. split; [reflexivity|].
  generalize (Text.replace "." "_" (Text.replace "-" "_" (Text.replace " " "_" h))).
  intros body. change ("`" +:+ body +:+ "`") with (String "`" (body +:+ "`")).
  assert (H : forall c, ends_with_percent (String c (body +:+ "`")) = false).
  { induction body as [|d body IH]; intros c; [reflexivity|].
    change (String d body +:+ "`") with (String d (body +:+ "`")).
    change (ends_with_percent (String c (String d (body +:+ "`"))))
      with (ends_with_percent (String d (body +:+ "`"))). apply IH. }
  apply H.
Qed.

Lemma ends_with_percent_append (a : string) (c : ascii) (b : string) :
  ends_with_percent (a +:+ String c b) = ends_with_percent (String c b).
Proof.
  induction a as [|d a IH]; [reflexivity|].
  change (String d a +:+ String c b) with (String d (a +:+ String c b)).
  rewrite <- IH. destruct a; reflexivity.
Qed.

Lemma joined_names_start (h : string) (rest : list string) :
  exists tail : string,
    Text.join ", " (clean_name <$> h :: rest) = String "`" tail.
Proof.
  destruct rest as [|h' rest']; eexists; reflexivity.
Qed.

Lemma markers_joined (headers : list string) :
  markers (Text.join ", " (clean_name <$> headers)) = sum_list (markers <$> headers)
  /\ ends_with_percent (Text.join ", " (clean_name <$> headers)) = false.
Proof.
  induction headers as [|h rest IH]; [split; reflexivity|].
  destruct rest as [|h' rest'].
  - cbn [fmap list_fmap Text.join sum_list sum_list_with].
    rewrite markers_clean_name. unfold id. split; [lia | apply clean_name_edges].
  - destruct IH as [IHm IHe].
    change (Text.join ", " (clean_name <$> h :: h' :: rest'))
      with (clean_name h +:+ ", " +:+ Text.join ", " (clean_name <$> h' :: rest')).
    split.
    + rewrite markers_append, markers_clean_name.
      change (", " +:+ Text.join ", " (clean_name <$> h' :: rest'))
        with (String "," (String " " (Text.join ", " (clean_name <$> h' :: rest')))).
      rewrite !markers_cons, IHm. unfold straddles.
      destruct (joined_names_start h' rest') as [tail ->].
      cbn [starts_with_s Ascii.eqb Bool.eqb andb]. rewrite andb_false_r.
      change (sum_list (markers <$> h :: h' :: rest'))
        with (markers h + sum_list (markers <$> h' :: rest'))%nat. lia.
    + destruct (joined_names_start h' rest') as [tail Htail].
      rewrite Htail in *.
      change (", " +:+ String "`" tail) with (String "," (String " " (String "`" tail))).
      rewrite ends_with_percent_append. exact IHe.
Qed.

Lemma straddles_no_s (a b : string) :
  starts_with_s b = false -> straddles a b = 0%nat.
Proof. unfold straddles. intros ->. now rewrite andb_false_r. Qed.

Lemma straddles_no_percent (a b : string) :
  ends_with_percent a = false -> straddles a b = 0%nat.
Proof. unfold straddles. now intros ->. Qed.

(** The markers of the insert statement: one per column, and those
    that the table name and the headers bring with them. *)
Lemma markers_insert_sql (t : string) (headers : list string) :
  markers (insert_sql t (clean_name <$> headers))
  = (length headers + markers t + sum_list (markers <$> headers))%nat.
Proof.
  unfold insert_sql.
  set (names := Text.join ", " (clean_name <$> headers)).
  set (marks := placeholders (clean_name <$> headers)).
  assert (Hmarks : markers marks = length headers).
  { unfold marks, placeholders, markers.
    rewrite placeholders_count. apply length_fmap. }
  assert (Hnames : markers names = sum_list (markers <$> headers))
    by apply markers_joined.
  rewrite (markers_append "INSERT INTO ").
  rewrite straddles_no_percent by reflexivity.
  rewrite (markers_append t).
  rewrite straddles_no_s by reflexivity.
  change (" (" +:+ names +:+ ") VALUES (" +:+ marks +:+ ")")
    with (String " " (String "(" (names +:+ ") VALUES (" +:+ marks +:+ ")"))).
  rewrite !markers_cons.
  rewrite (markers_append names).
  rewrite straddles_no_s by reflexivity.
  rewrite (markers_append ") VALUES (" _).
  rewrite straddles_no_percent by reflexivity.
  rewrite (markers_append marks ")").
  rewrite (straddles_no_s marks ")") by reflexivity.
  rewrite Hmarks, Hnames.
  cbn [Ascii.eqb Bool.eqb andb].
  change (markers "") with 0%nat.
  change (markers ") VALUES (") with 0%nat.
  change (markers ")") with 0%nat. lia.
Qed.

Lemma sum_list_zero (counts : list nat) :
  Forall (fun n => n = 0%nat) counts -> sum_list counts = 0%nat.
Proof.
  induction 1 as [|n rest -> _ IH]; [reflexivity|].
  cbn [sum_list sum_list_with]. unfold id. exact IH.
Qed.

(** C10, as the code has it. When the synchronization succeeds, the
    column list it returns holds the cleaned name of each header, one
    per data set column and in the same order; the create statement it
    ran declares exactly those columns; the insert statement is the
    text of line 114 over that list, and the markers [%s] in it are one
    per entry of the list and, besides, those that the table name and
    the headers contain: exactly one per entry when neither contains
    one.  Every row that [insert_data] then submits with that list
    carries that statement and one converted value per column.  In a
    run of [main] on that sheet in which nothing fails, the create
    statement and every insert are built from this one list. *)
Theorem columns_aligned c path t w df cols :
  (create_table_if_not_exists c path t w).1 = Return (Some (df, cols)) ->
  rectangular df ->
  (exists headers : list string,
     df_columns df = LStr <$> headers /\ cols = clean_name <$> headers
     /\ markers (insert_sql t cols)
        = (length cols + markers t + sum_list (markers <$> headers))%nat
     /\ (markers t = 0%nat -> Forall (fun h => markers h = 0%nat) headers ->
         markers (insert_sql t cols) = length cols))
  /\ length cols = length (df_cols df)
  /\ calls (create_table_if_not_exists c path t w).2
     = calls w ++ [ CallCursor; CallExecute (create_table_sql t cols) None;
                    CallCommit ]
  /\ create_table_sql t cols
     = "CREATE TABLE IF NOT EXISTS "
       +:+ (t +:+ String " " ("(id INT AUTO_INCREMENT PRIMARY KEY, "
                              +:+ Text.join ", " ((fun col => col +:+ " TEXT") <$> cols)
                              +:+ ")"))
  /\ insert_sql t cols
     = "INSERT INTO " +:+ t +:+ " (" +:+ Text.join ", " cols +:+ ") VALUES ("
       +:+ Text.join ", " (replicate (length cols) "%s") +:+ ")"
  /\ placeholders cols = Text.join ", " (replicate (length cols) "%s")
  /\ Text.occurrences "%s" (placeholders cols) = length cols
  /\ (forall (w' : World) (sql : string) (params : list (option string)),
        CallExecute sql (Some params)
          ∈ drop (length (calls w')) (calls (insert_data c df cols t w').2) ->
        sql = insert_sql t cols
        /\ length params = length cols
        /\ exists row : list cell,
             row ∈ df_rows df /\ params = convert_timestamp <$> row)
  /\ (forall (w0 : World) (ini : ini) (cfg : Config),
        fs w0 !! "config.ini" = Some (IniFile ini) ->
        settings ini = Some cfg ->
        srv_refuse (server w0) = None ->
        srv_alive (server w0) = true ->
        fs w0 !! excel_file cfg = Some (ExcelFile df) ->
        rejection (2 + S (length (df_rows df))) (server w0) = None ->
        calls (main w0).2
        = calls w0
          ++ [ CallConnect (host cfg) (database cfg) (user cfg) (password cfg);
               CallCursor;
               CallExecute (create_table_sql (table cfg) cols) None;
               CallCommit;
               CallCursor ]
          ++ ((fun row => CallExecute (insert_sql (table cfg) cols)
                            (Some (convert_timestamp <$> row)))
              <$> df_rows df)
          ++ [CallCommit; CallClose]).
Proof.
  intros Hok Hrect.
  destruct (sync_success_inv _ _ _ _ _ _ Hok) as (Hfile & Hcols & Hacc).
  destruct (clean_columns_inv _ _ Hcols) as (headers & Hlabels & Hnames).
  assert (Hlen : length cols = length (df_cols df)).
  { subst cols. rewrite length_fmap.
    unfold df_columns in Hlabels.
    rewrite <- (length_fmap fst (df_cols df)), Hlabels. now rewrite length_fmap. }
  assert (Hmarkers : markers (insert_sql t cols)
                     = (length cols + markers t + sum_list (markers <$> headers))%nat).
  { rewrite Hnames, markers_insert_sql. now rewrite length_fmap. }
  destruct (sync_run c path t w df cols Hfile Hcols) as (_ & _ & _ & Hrun).
  rewrite Hacc in Hrun. destruct Hrun as (_ & Hcalls & _).
  split_and!; auto.
  - exists headers. split_and!; auto.
    intros Ht Hheaders. rewrite Hmarkers, Ht, sum_list_zero; [lia|].
    now apply Forall_fmap.
  - apply create_table_sql_text.
  - unfold placeholders. apply placeholders_count.
  - intros w' sql params Hin.
    destruct (insert_data_calls c df cols t w')
      as ((k & tail & Hk & Htail & Hmade) & _).
    rewrite Hmade, drop_app_length in Hin.
    apply elem_of_cons in Hin as [Hin|Hin]; [discriminate|].
    apply elem_of_app in Hin as [Hin|Hin].
    + apply list_elem_of_fmap in Hin as (row & Heq & Hrow).
      unfold row_call in Heq. injection Heq as -> ->.
      assert (Hmem : row ∈ df_rows df).
      { eapply subseteq_take; eassumption. }
      split_and!; auto.
      * rewrite length_fmap, Hlen.
        unfold rectangular in Hrect. rewrite Forall_forall in Hrect.
        now apply Hrect.
      * eauto.
    + destruct Htail as [-> | ->].
      * now apply elem_of_nil in Hin.
      * apply list_elem_of_singleton in Hin. discriminate.
  - intros w0 ini cfg Hini Hset Hlogin Halive Hsheet Hacc0.
    exact (proj2 (main_success w0 ini cfg df cols Hini Hset Hlogin Halive
                    Hsheet Hcols Hacc0)).
Qed.

Lemma columns_aligned_form :
  (create_table_if_not_exists MySQLConnection "responses.xlsx" "form_responses"
     (configured quiet_server)).1 = Return (Some (two_records, form_columns))
  /\ rectangular two_records
  /\ length form_columns = length (df_cols two_records)
  /\ insert_sql "form_responses" form_columns
     = "INSERT INTO form_responses (`Full_Name`, `Score_1`, `Submitted_On`) VALUES (%s, %s, %s)"
  /\ markers (insert_sql "form_responses" form_columns) = length form_columns
  /\ calls (main (configured quiet_server)).2
     = [ CallConnect "db.example" "forms" "importer" "secret";
         CallCursor;
         CallExecute (create_table_sql "form_responses" form_columns) None;
         CallCommit;
         CallCursor;
         CallExecute (insert_sql "form_responses" form_columns)
           (Some [Some "Jane Doe"; Some "42.0"; Some "2024-01-02 03:04:05"]);
         CallExecute (insert_sql "form_responses" form_columns)
           (Some [Some "John Roe"; None; Some "2024-01-02 03:04:05"]);
         CallCommit;
         CallClose ].
Proof.
  assert (Hok : (create_table_if_not_exists MySQLConnection "responses.xlsx"
                   "form_responses" (configured quiet_server)).1
                = Return (Some (two_records, form_columns))) by (vm_compute; reflexivity).
  assert (Hrect : rectangular two_records)
    by (repeat constructor).
  destruct (columns_aligned _ _ _ _ _ _ Hok Hrect)
    as ((headers & Hlabels & Hnames & Hmarkers & _) & Hlen & _ & _ & Htext & _ & _ & _ & Hmain).
  split_and!; [exact Hok | exact Hrect | exact Hlen | exact Htext | | ].
  - rewrite Hmarkers.
    cbv [df_columns two_records df_cols fmap list_fmap fst] in Hlabels.
    destruct headers as [|h1 [|h2 [|h3 [|]]]]; try discriminate Hlabels.
    injection Hlabels as <- <- <-. reflexivity.
  - exact (Hmain (configured quiet_server) form_config form_settings
             eq_refl eq_refl eq_refl eq_refl eq_refl eq_refl).
Defined.

(** C10 as stated fails: with a header that contains the marker of
    the driver, the insert statement built for the one column of the
    sheet holds two markers. *)
Lemma insert_statement_marker_in_header :
  (create_table_if_not_exists MySQLConnection "responses.xlsx" "form_responses"
     marker_world).1 = Return (Some (marker_frame, ["`a%sb`"]))
  /\ rectangular marker_frame
  /\ insert_sql "form_responses" ["`a%sb`"]
     = "INSERT INTO form_responses (`a%sb`) VALUES (%s)"
  /\ Text.occurrences "%s" (insert_sql "form_responses" ["`a%sb`"]) = 2%nat
  /\ length ["`a%sb`"] = 1%nat.
Proof.
  split_and!; [vm_compute; reflexivity | repeat constructor | reflexivity ..].
Qed.
(** ** Table creation *)

(** C9. The statement of the synchronization is CREATE TABLE IF NOT
    EXISTS for the given table name, and the commit follows it at once,
    inside the function.  After a synchronization that succeeded, a
    second one for the same table name and sheet returns normally, and
    a second one for any sheet leaves the tables of the server as they
    were: nothing is created again and no column is changed. *)
Theorem table_creation_idempotent c path t w df cols :
  (create_table_if_not_exists c path t w).1 = Return (Some (df, cols)) ->
  strip_prefix "CREATE TABLE IF NOT EXISTS " (create_table_sql t cols)
  = Some (t +:+ String " " ("(id INT AUTO_INCREMENT PRIMARY KEY, "
                            +:+ Text.join ", " ((fun col => col +:+ " TEXT") <$> cols)
                            +:+ ")"))
  /\ calls (create_table_if_not_exists c path t w).2
     = calls w ++ [ CallCursor; CallExecute (create_table_sql t cols) None;
                    CallCommit ]
  /\ is_Some (srv_tables (server (create_table_if_not_exists c path t w).2)
              !! (first_word t).1)
  /\ (exists again : option (DataFrame * list string),
        (create_table_if_not_exists c path t
           (create_table_if_not_exists c path t w).2).1 = Return again)
  /\ (forall path' : string,
        srv_tables (server (create_table_if_not_exists c path' t
                              (create_table_if_not_exists c path t w).2).2)
        = srv_tables (server (create_table_if_not_exists c path t w).2)).
Proof.
  intros Hok.
  destruct (sync_success_inv _ _ _ _ _ _ Hok) as (Hfile & Hcols & Hacc).
  destruct (sync_run c path t w df cols Hfile Hcols) as (Hfs & _ & Htab & Hrun).
  rewrite Hacc in Hrun. destruct Hrun as (_ & Hcalls & _).
  assert (Hacc1 : rejection 1 (server w) = None).
  { unfold rejection in *. change 2%nat with (1 + 1)%nat in Hacc.
    rewrite first_fault_split in Hacc.
    destruct (first_fault 1 (srv_faults (server w))); [discriminate | reflexivity]. }
  rewrite Hacc1 in Htab.
  set (w1 := (create_table_if_not_exists c path t w).2) in *.
  split_and!.
  - rewrite create_table_sql_text. apply strip_prefix_append.
  - exact Hcalls.
  - rewrite Htab. destruct (run_create t cols (srv_tables (server w))) as [defs ->].
    destruct (srv_tables (server w) !! (first_word t).1) as [d|] eqn:Hd.
    + rewrite Hd. eauto.
    + rewrite lookup_insert_eq. eauto.
  - assert (Hfile1 : fs w1 !! path = Some (ExcelFile df)) by now rewrite Hfs.
    destruct (sync_run c path t w1 df cols Hfile1 Hcols) as (_ & _ & _ & Hrun1).
    destruct (rejection 2 (server w1)) as [e|]; destruct Hrun1 as [-> _]; eauto.
  - intros path'.
    destruct (sync_tables c path' t w1) as [Hsame | [cols' Hran]]; [exact Hsame|].
    rewrite Hran, Htab. apply run_create_twice.
Qed.

Lemma table_creation_idempotent_form :
  (create_table_if_not_exists MySQLConnection "responses.xlsx" "form_responses"
     (configured quiet_server)).1 = Return (Some (two_records, form_columns))
  /\ (exists again : option (DataFrame * list string),
        (create_table_if_not_exists MySQLConnection "responses.xlsx" "form_responses"
           (create_table_if_not_exists MySQLConnection "responses.xlsx"
              "form_responses" (configured quiet_server)).2).1 = Return again)
  /\ (forall path' : string,
        srv_tables (server (create_table_if_not_exists MySQLConnection path'
                              "form_responses"
                              (create_table_if_not_exists MySQLConnection
                                 "responses.xlsx" "form_responses"
                                 (configured quiet_server)).2).2)
        = srv_tables (server (create_table_if_not_exists MySQLConnection
                                "responses.xlsx" "form_responses"
                                (configured quiet_server)).2)).
Proof.
  assert (Hok : (create_table_if_not_exists MySQLConnection "responses.xlsx"
                   "form_responses" (configured quiet_server)).1
                = Return (Some (two_records, form_columns))) by (vm_compute; reflexivity).
  destruct (table_creation_idempotent _ _ _ _ _ _ Hok) as (_ & _ & _ & Hagain & Hsame).
  split_and!; assumption.
Defined.
(** ** Failures *)

(** What [main] does once the connection is open and the
    synchronization has returned [None]. *)
Lemma main_after_failed_sync w ini cfg df cols e :
  fs w !! "config.ini" = Some (IniFile ini) ->
  settings ini = Some cfg ->
  srv_refuse (server w) = None ->
  srv_alive (server w) = true ->
  fs w !! excel_file cfg = Some (ExcelFile df) ->
  clean_columns (df_columns df) = Return cols ->
  rejection 2 (server w) = Some e ->
  (main w).1 = Return tt
  /\ exists tail : list call,
       (tail = [] \/ tail = [CallCommit])
       /\ calls (main w).2
          = calls w ++ CallConnect (host cfg) (database cfg) (user cfg) (password cfg)
              :: CallCursor
              :: CallExecute (create_table_sql (table cfg) cols) None
              :: tail ++ [CallClose].
Proof.
  intros Hini Hset Hlogin Halive Hfile Hcols Hrej.
  rewrite main_eq.
  rewrite (read_config_present "config.ini" (started w) ini cfg Hini Hset).
  destruct (connect_run cfg (started w)) as (Cfs & Csrv & Ccalls & Cres).
  change (server (started w)) with (server w) in *.
  change (fs (started w)) with (fs w) in *.
  change (calls (started w)) with (calls w) in *.
  rewrite Hlogin, Halive in Cres. destruct Cres as (_ & Cr & _).
  destruct (connect_to_database cfg (started w)) as [r w2]. cbn [fst snd] in *.
  subst r.
  assert (Hfile2 : fs w2 !! excel_file cfg = Some (ExcelFile df)) by now rewrite Cfs.
  destruct (sync_run MySQLConnection (excel_file cfg) (table cfg) w2 df cols Hfile2 Hcols)
    as (_ & _ & _ & Hrun).
  rewrite Csrv, Hrej in Hrun. destruct Hrun as (Sres & (tail & Htail & Scalls) & _).
  destruct (create_table_if_not_exists _ _ _ w2) as [r w3]. cbn [fst snd] in *.
  subst r. cbn [close record_call fst snd calls]. split; [reflexivity|].
  exists tail. split; [exact Htail|].
  rewrite Scalls, Ccalls, <- !app_assoc. reflexivity.
Qed.

(** C5, as the code has it. When the server rejects the create
    statement or its commit, the synchronization logs and prints the
    error and returns the null pair, and [main] then closes the
    connection and returns without submitting any row.  A sheet that is
    missing or is not a spreadsheet is another matter: the exception of
    the reader leaves the function, with nothing logged or printed. *)
Theorem sync_rejection_stops_run :
  (forall c path t w df cols e,
     fs w !! path = Some (ExcelFile df) ->
     clean_columns (df_columns df) = Return cols ->
     rejection 2 (server w) = Some e ->
     (create_table_if_not_exists c path t w).1 = Return None
     /\ log (create_table_if_not_exists c path t w).2
        = log w ++ [(INFO, "DataFrame info: None");
                    (ERROR, "Error creating table: " +:+ e)]
     /\ stdout (create_table_if_not_exists c path t w).2
        = stdout w ++ [FrameSummary df; Line ("Error creating table: " +:+ e)])
  /\ (forall w ini cfg df cols e,
        fs w !! "config.ini" = Some (IniFile ini) ->
        settings ini = Some cfg ->
        srv_refuse (server w) = None ->
        srv_alive (server w) = true ->
        fs w !! excel_file cfg = Some (ExcelFile df) ->
        clean_columns (df_columns df) = Return cols ->
        rejection 2 (server w) = Some e ->
        (main w).1 = Return tt
        /\ exists made : list call,
             calls (main w).2 = calls w ++ made
             /\ insert_attempts made = []
             /\ last made = Some CallClose)
  /\ (forall c path t w,
        fs w !! path = None ->
        create_table_if_not_exists c path t w = (Raise (FileNotFoundError path), w))
  /\ (forall c path t w raw,
        fs w !! path = Some (OtherFile raw) ->
        create_table_if_not_exists c path t w
        = (Raise (ValueError "Excel file format cannot be determined"), w)).
Proof.
  split_and!.
  - intros c path t w df cols e Hfile Hcols Hrej.
    destruct (sync_run c path t w df cols Hfile Hcols) as (_ & _ & _ & Hrun).
    rewrite Hrej in Hrun. destruct Hrun as (Hres & _ & Hlog & Hout). auto.
  - intros w ini cfg df cols e Hini Hset Hlogin Halive Hfile Hcols Hrej.
    destruct (main_after_failed_sync w ini cfg df cols e Hini Hset Hlogin Halive
                Hfile Hcols Hrej) as (Hres & tail & Htail & Hcalls).
    split; [exact Hres|]. eexists. split; [exact Hcalls|].
    destruct Htail as [-> | ->]; split; reflexivity.
  - intros c path t w Hnone. now rewrite sync_eq, Hnone.
  - intros c path t w raw Hother. now rewrite sync_eq, Hother.
Qed.

Lemma sync_rejection_stops_run_denied :
  rejection 2 (server (configured rejecting_server))
  = Some "1142 (42000): CREATE command denied to user 'importer'"
  /\ (main (configured rejecting_server)).1 = Return tt
  /\ exists made : list call,
       calls (main (configured rejecting_server)).2
       = calls (configured rejecting_server) ++ made
       /\ insert_attempts made = []
       /\ last made = Some CallClose.
Proof.
  split; [reflexivity|].
  exact (proj1 (proj2 sync_rejection_stops_run) (configured rejecting_server)
           form_config form_settings two_records form_columns
           "1142 (42000): CREATE command denied to user 'importer'"
           eq_refl eq_refl eq_refl eq_refl eq_refl eq_refl eq_refl).
Defined.

(** C5 as stated fails: with the sheet missing, or not a spreadsheet,
    the synchronization raises past its boundary; it does not return
    the null pair, and it logs and prints nothing. *)
Lemma sync_read_failure_escapes :
  create_table_if_not_exists MySQLConnection "responses.xlsx" "form_responses"
    sheet_missing
  = (Raise (FileNotFoundError "responses.xlsx"), sheet_missing)
  /\ create_table_if_not_exists MySQLConnection "responses.xlsx" "form_responses"
       sheet_malformed
     = (Raise (ValueError "Excel file format cannot be determined"), sheet_malformed)
  /\ (create_table_if_not_exists MySQLConnection "responses.xlsx" "form_responses"
        sheet_missing).1 <> Return None
  /\ (main sheet_missing).1 = Raise (FileNotFoundError "responses.xlsx").
Proof.
  split_and!; try (vm_compute; reflexivity). vm_compute. discriminate.
Qed.
(** C6. When the server refuses the connection, [connect_to_database]
    logs the error with its cause, prints the same line and returns
    [None] instead of raising; [main] then returns with the connection
    attempt as its only driver call: no cursor, no statement, no
    commit, and the server and the files untouched. *)
Theorem connection_failure_stops_run cfg w (e : string) :
  srv_refuse (server w) = Some (Refused e) ->
  (connect_to_database cfg w).1 = Return None
  /\ log (connect_to_database cfg w).2
     = log w ++ [(ERROR, "Error connecting to MySQL database: " +:+ e)]
  /\ stdout (connect_to_database cfg w).2
     = stdout w ++ [Line ("Error connecting to MySQL database: " +:+ e)]
  /\ (forall ini : ini,
        fs w !! "config.ini" = Some (IniFile ini) ->
        settings ini = Some cfg ->
        (main w).1 = Return tt
        /\ calls (main w).2
           = calls w ++ [CallConnect (host cfg) (database cfg) (user cfg) (password cfg)]
        /\ server (main w).2 = server w
        /\ fs (main w).2 = fs w
        /\ stdout (main w).2
           = stdout w ++ [Line "Starting Excel to MySQL data transfer...";
                          Line ("Error connecting to MySQL database: " +:+ e)]).
Proof.
  intros Hrefuse. split_and!.
  - destruct (connect_run cfg w) as (_ & _ & _ & Hres).
    rewrite Hrefuse in Hres. tauto.
  - destruct (connect_run cfg w) as (_ & _ & _ & Hres).
    rewrite Hrefuse in Hres. tauto.
  - destruct (connect_run cfg w) as (_ & _ & _ & Hres).
    rewrite Hrefuse in Hres. tauto.
  - intros ini Hini Hset. rewrite main_eq.
    rewrite (read_config_present "config.ini" (started w) ini cfg Hini Hset).
    destruct (connect_run cfg (started w)) as (Cfs & Csrv & Ccalls & Cres).
    change (server (started w)) with (server w) in *.
    rewrite Hrefuse in Cres. destruct Cres as (Cr & _ & Cout).
    destruct (connect_to_database cfg (started w)) as [r w2]. cbn [fst snd] in *.
    subst r. cbn [fst snd]. rewrite Cfs, Csrv, Ccalls, Cout. cbn. rewrite <- app_assoc. auto 10.
Qed.

Lemma connection_failure_stops_run_unreachable :
  srv_refuse (server (configured unreachable_server))
  = Some (Refused "2003: Can't connect to MySQL server on 'db.example:3306'")
  /\ (connect_to_database form_settings (configured unreachable_server)).1 = Return None
  /\ (main (configured unreachable_server)).1 = Return tt
  /\ calls (main (configured unreachable_server)).2
     = [CallConnect "db.example" "forms" "importer" "secret"].
Proof.
  split; [reflexivity|].
  destruct (connection_failure_stops_run form_settings (configured unreachable_server)
              "2003: Can't connect to MySQL server on 'db.example:3306'" eq_refl)
    as (Hnone & _ & _ & Hmain).
  destruct (Hmain form_config eq_refl eq_refl) as (Hret & Hcalls & _).
  split_and!; assumption.
Defined.

(** ** The first run *)

(** C7, as the code has it. With no file at the given path,
    [read_config] writes the template with the placeholder settings
    there, prints two lines for the operator and exits with status 1;
    besides the template and the terminal it appends a record to the
    log file of the run, and nothing else changes.  A run of [main]
    then ends with that exit status, its log holding the start record
    and the record of the template, with no driver call made and the
    server as it was. *)
Theorem first_run_writes_template :
  (forall (path : string) (w : World),
     fs w !! path = None ->
     read_config path w
     = (Raise (SystemExit 1),
        {| fs := <[path := IniFile default_config]> (fs w);
           log := log w ++ [(INFO, "Created default config file: " +:+ path)];
           stdout := stdout w
                     ++ [Line ("Created default config file: " +:+ path);
                         Line "Please update the config file with your database credentials and try again."];
           server := server w;
           calls := calls w |}))
  /\ settings default_config
     = Some {| host := "localhost"; database := "your_database";
               user := "your_username"; password := "your_password";
               table := "form_responses";
               excel_file := "google_form_responses.xlsx" |}
  /\ (forall w : World,
        fs w !! "config.ini" = None ->
        (main w).1 = Raise (SystemExit 1)
        /\ fs (main w).2 = <["config.ini" := IniFile default_config]> (fs w)
        /\ log (main w).2
           = log w ++ [(INFO, "Starting Excel to MySQL data transfer");
                       (INFO, "Created default config file: config.ini")]
        /\ stdout (main w).2
           = stdout w ++ [Line "Starting Excel to MySQL data transfer...";
                          Line "Created default config file: config.ini";
                          Line "Please update the config file with your database credentials and try again."]
        /\ server (main w).2 = server w
        /\ calls (main w).2 = calls w).
Proof.
  split_and!.
  - exact read_config_missing.
  - reflexivity.
  - intros w Hnone. rewrite main_eq.
    rewrite (read_config_missing "config.ini" (started w) Hnone).
    cbn. rewrite <- !app_assoc. auto 10.
Qed.

Lemma first_run_writes_template_fresh :
  fs first_run !! "config.ini" = None
  /\ (main first_run).1 = Raise (SystemExit 1)
  /\ fs (main first_run).2 !! "config.ini" = Some (IniFile default_config)
  /\ server (main first_run).2 = server first_run
  /\ calls (main first_run).2 = [].
Proof.
  split; [reflexivity|].
  destruct (proj2 (proj2 first_run_writes_template) first_run eq_refl)
    as (Hexit & Hfs & _ & _ & Hsrv & Hcalls).
  split_and!; try assumption. rewrite Hfs. apply lookup_insert_eq.
Defined.

(** C7 as stated fails: the template is not the only thing the first
    run leaves behind.  The loader appends a record to the log file,
    and so does [main] before it. *)
Lemma first_run_also_writes_log :
  fs first_run !! "config.ini" = None
  /\ log first_run = []
  /\ log (read_config "config.ini" first_run).2
     = [(INFO, "Created default config file: config.ini")]
  /\ log (main first_run).2
     = [(INFO, "Starting Excel to MySQL data transfer");
        (INFO, "Created default config file: config.ini")]
  /\ log (main first_run).2 <> log first_run.
Proof.
  split_and!; try reflexivity. vm_compute. discriminate.
Qed.

(** * Further properties of the script *)

(** ** Cleaned names *)

Lemma smap_append f (a b : string) :
  Text.smap f (a +:+ b) = Text.smap f a +:+ Text.smap f b.
Proof.
  induction a as [|c a IH]; [reflexivity|].
  change (String (f c) (Text.smap f (a +:+ b))
          = String (f c) (Text.smap f a +:+ Text.smap f b)).
  now rewrite IH.
Qed.

Lemma underscored_clean (s : string) :
  every (fun c => negb (is_separator c)) (Text.smap underscore_separator s) = true.
Proof.
  induction s as [|c s IH]; [reflexivity|].
  cbn [Text.smap every]. rewrite IH, andb_true_r.
  unfold underscore_separator, is_separator.
  destruct (Ascii.eqb c " ") eqn:Hsp; [reflexivity|].
  destruct (Ascii.eqb c "-") eqn:Hhy; [reflexivity|].
  destruct (Ascii.eqb c ".") eqn:Hpe; [reflexivity|].
  now rewrite Hsp, Hhy, Hpe.
Qed.

Lemma underscored_fixed (s : string) :
  every (fun c => negb (is_separator c)) s = true ->
  Text.smap underscore_separator s = s.
Proof.
  induction s as [|c s IH]; [reflexivity|].
  cbn [every Text.smap]. intros [Hc Hs]%andb_true_iff. rewrite (IH Hs). f_equal.
  unfold is_separator in Hc. unfold underscore_separator.
  destruct (Ascii.eqb c " "); [discriminate|].
  destruct (Ascii.eqb c "-"); [discriminate|].
  destruct (Ascii.eqb c "."); [discriminate | reflexivity].
Qed.

(** X1. Between its two backticks a cleaned name has as many
    characters as the header and none of them is a space, a hyphen or
    a period; a header without these characters is only quoted. *)
Theorem clean_name_has_no_separator (col : string) :
  (exists body : string,
     clean_name col = "`" +:+ body +:+ "`"
     /\ String.length body = String.length col
     /\ every (fun c => negb (is_separator c)) body = true)
  /\ (every (fun c => negb (is_separator c)) col = true ->
        clean_name col = "`" +:+ col +:+ "`").
Proof.
  split.
  - exists (Text.smap underscore_separator col). split_and!.
    + unfold clean_name. now rewrite replace_chain.
    + apply smap_length.
    + apply underscored_clean.
  - intros Hclean. unfold clean_name.
    now rewrite replace_chain, (underscored_fixed col Hclean).
Qed.

Lemma clean_name_has_no_separator_plain :
  every (fun c => negb (is_separator c)) "Email" = true
  /\ clean_name "Email" = "`Email`".
Proof.
  split; [reflexivity|].
  exact (proj2 (clean_name_has_no_separator "Email") eq_refl).
Defined.

(** X2. Cleaning is not one-to-one: headers that differ only in which
    of space, hyphen, period or underscore stands at some place get the
    same cleaned name, and the column list of a sheet with two such
    headers holds that name twice. *)
Theorem clean_name_collides (a b : string) :
  clean_name (a +:+ String " " b) = clean_name (a +:+ String "_" b)
  /\ clean_name (a +:+ String "-" b) = clean_name (a +:+ String "_" b)
  /\ clean_name (a +:+ String "." b) = clean_name (a +:+ String "_" b)
  /\ clean_columns [LStr (a +:+ String " " b); LStr (a +:+ String "-" b)]
     = Return [clean_name (a +:+ String "_" b); clean_name (a +:+ String "_" b)].
Proof.
  assert (Hsp : clean_name (a +:+ String " " b) = clean_name (a +:+ String "_" b)).
  { unfold clean_name. now rewrite !replace_chain, !smap_append. }
  assert (Hhy : clean_name (a +:+ String "-" b) = clean_name (a +:+ String "_" b)).
  { unfold clean_name. now rewrite !replace_chain, !smap_append. }
  assert (Hpe : clean_name (a +:+ String "." b) = clean_name (a +:+ String "_" b)).
  { unfold clean_name. now rewrite !replace_chain, !smap_append. }
  split_and!; auto. cbn [clean_columns]. now rewrite Hsp, Hhy.
Qed.

(** ** Converted values *)

(** X3. Only a missing cell becomes NULL: the converter returns [None]
    exactly for the cells that [pd.isna] accepts, and a text cell is
    handed on as it is, the empty text included. *)
Theorem convert_null_only_when_missing (val : cell) :
  (convert_timestamp val = None <-> Pandas.isna val = true)
  /\ (forall s : string, val = CStr s -> convert_timestamp val = Some s).
Proof.
  split.
  - unfold convert_timestamp. destruct (Pandas.isna val) eqn:Hna.
    + tauto.
    + split; [|discriminate]. destruct val; discriminate.
  - intros s ->. reflexivity.
Qed.

Lemma convert_null_only_when_missing_empty_text :
  convert_timestamp (CStr "") = Some "".
Proof. exact (proj2 (convert_null_only_when_missing (CStr "")) "" eq_refl). Defined.


(** X5. An integer cell is stored as its decimal text, from which the
    integer can be read back; so different integers are stored
    differently. *)
Theorem convert_integer_round_trip (z : Z) :
  exists s : string,
    convert_timestamp (CInt z) = Some s /\ parse_Z s = Some z.
Proof.
  exists (Text.of_Z z). split; [reflexivity|].
  unfold parse_Z, Text.of_Z.
  assert (Hparse : NilZero.int_of_string (NilZero.string_of_int (Z.to_int z))
                   = Some (Z.to_int z)).
  { apply NilZero.isi; destruct z as [|p|p]; cbn; try discriminate;
      intros [= H]; exact (DecimalPos.Unsigned.to_uint_nonnil p H). }
  rewrite Hparse. cbn. now rewrite DecimalZ.of_to.
Qed.

(** ** The configuration loader *)

Lemma assoc_in {V} (key : string) (l : list (string * V)) (v : V) :
  assoc key l = Some v -> In (key, v) l.
Proof.
  induction l as [|[k v'] rest IH]; cbn [assoc]; [discriminate|].
  destruct (String.eqb_spec k key) as [->|Hne].
  - intros [= ->]. now left.
  - intros Hrest. right. now apply IH.
Qed.

Lemma until_percent_plain (v : string) :
  has_percent v = false -> until_percent v = (v, EmptyString).
Proof.
  induction v as [|c v IH]; [reflexivity|].
  cbn [has_percent until_percent]. intros [Hc Hv]%orb_false_iff.
  now rewrite Hc, (IH Hv).
Qed.

(** A value without a percent sign is read as it is written. *)
Lemma interpolate_plain (levels : nat) lookup (v : string) :
  has_percent v = false -> interpolate (S levels) lookup v = Return v.
Proof.
  intros Hv. cbn [interpolate]. now rewrite (until_percent_plain v Hv).
Qed.

Lemma percent_free_value (c : ini) (section key : string) keys v :
  percent_free c = true ->
  assoc section c = Some keys ->
  assoc key keys = Some v ->
  has_percent v = false.
Proof.
  intros Hfree Hsec Hkey. unfold percent_free in Hfree.
  rewrite forallb_forall in Hfree.
  specialize (Hfree _ (assoc_in _ _ _ Hsec)). cbn in Hfree.
  rewrite forallb_forall in Hfree.
  specialize (Hfree _ (assoc_in _ _ _ Hkey)). cbn in Hfree.
  now apply negb_true_iff in Hfree.
Qed.

(** In a file without percent signs a lookup returns the value of the
    section, or else of [DEFAULT], and fails with [KeyError] exactly
    when the file does not supply the setting. *)
Lemma ini_value_plain (c : ini) (section key : string) :
  percent_free c = true ->
  if unsupplied c section key
  then ini_value c section key = Raise (KeyError section)
       \/ ini_value c section key = Raise (KeyError key)
  else exists v, ini_value c section key = Return v.
Proof.
  intros Hfree. unfold unsupplied, ini_value.
  destruct (assoc section c) as [keys|] eqn:Hsec; [|now left].
  destruct (assoc key keys) as [v|] eqn:Hkey; cbv beta iota zeta.
  - exists v. apply interpolate_plain.
    exact (percent_free_value c section key keys v Hfree Hsec Hkey).
  - destruct (assoc "DEFAULT" c) as [defaults|] eqn:Hdef; cbn [default]; unfold id.
    + destruct (assoc key defaults) as [v|] eqn:Hkey'; cbv beta iota; [|now right].
      exists v. apply interpolate_plain.
      exact (percent_free_value c "DEFAULT" key defaults v Hfree Hdef Hkey').
    + cbn [assoc]. cbv beta iota. now right.
Qed.

(** X6. With a configuration file that has the two sections and the
    six keys, each with a value free of percent signs, the loader
    returns the six values as they stand in the file and leaves files,
    log, terminal and server as they were. *)
Theorem read_config_returns_file_values path w c db files h d u p t x :
  fs w !! path = Some (IniFile c) ->
  assoc "DATABASE" c = Some db ->
  assoc "FILES" c = Some files ->
  assoc "host" db = Some h ->
  assoc "database" db = Some d ->
  assoc "user" db = Some u ->
  assoc "password" db = Some p ->
  assoc "table" db = Some t ->
  assoc "excel_file" files = Some x ->
  has_percent h = false ->
  has_percent d = false ->
  has_percent u = false ->
  has_percent p = false ->
  has_percent t = false ->
  has_percent x = false ->
  read_config path w
  = (Return {| host := h; database := d; user := u; password := p;
               table := t; excel_file := x |}, w).
Proof.
  intros Hfile Hdb Hfiles Hh Hd Hu Hp Ht Hx Fh Fd Fu Fp Ft Fx.
  rewrite (read_config_loaded path w c Hfile). f_equal.
  unfold loaded, ini_value. rewrite Hdb, Hfiles, Hh, Hd, Hu, Hp, Ht, Hx.
  now rewrite !interpolate_plain by assumption.
Qed.

Lemma read_config_returns_file_values_form :
  read_config "config.ini" (configured quiet_server)
  = (Return form_settings, configured quiet_server).
Proof.
  assert (Hfile : fs (configured quiet_server) !! "config.ini"
                  = Some (IniFile form_config)) by (vm_compute; reflexivity).
  exact (read_config_returns_file_values "config.ini" (configured quiet_server)
           form_config
           [ ("host", "db.example"); ("database", "forms"); ("user", "importer");
             ("password", "secret"); ("table", "form_responses") ]
           [ ("excel_file", "responses.xlsx") ]
           "db.example" "forms" "importer" "secret" "form_responses" "responses.xlsx"
           Hfile eq_refl eq_refl eq_refl eq_refl eq_refl eq_refl eq_refl eq_refl
           eq_refl eq_refl eq_refl eq_refl eq_refl eq_refl).
Defined.

Lemma loaded_plain (c : ini) :
  percent_free c = true ->
  (forall section key, In (section, key) lookups -> unsupplied c section key = false)
  \/ exists name : string, name ∈ setting_names /\ loaded c = Raise (KeyError name).
Proof.
  intros Hfree. unfold loaded.
  pose proof (ini_value_plain c "DATABASE" "host" Hfree) as H1.
  pose proof (ini_value_plain c "DATABASE" "database" Hfree) as H2.
  pose proof (ini_value_plain c "DATABASE" "user" Hfree) as H3.
  pose proof (ini_value_plain c "DATABASE" "password" Hfree) as H4.
  pose proof (ini_value_plain c "DATABASE" "table" Hfree) as H5.
  pose proof (ini_value_plain c "FILES" "excel_file" Hfree) as H6.
  destruct (unsupplied c "DATABASE" "host") eqn:U1.
  { right. destruct H1 as [-> | ->]; eexists; (split; [|reflexivity]);
      unfold setting_names; set_solver. }
  destruct H1 as [v1 ->].
  destruct (unsupplied c "DATABASE" "database") eqn:U2.
  { right. destruct H2 as [-> | ->]; eexists; (split; [|reflexivity]);
      unfold setting_names; set_solver. }
  destruct H2 as [v2 ->].
  destruct (unsupplied c "DATABASE" "user") eqn:U3.
  { right. destruct H3 as [-> | ->]; eexists; (split; [|reflexivity]);
      unfold setting_names; set_solver. }
  destruct H3 as [v3 ->].
  destruct (unsupplied c "DATABASE" "password") eqn:U4.
  { right. destruct H4 as [-> | ->]; eexists; (split; [|reflexivity]);
      unfold setting_names; set_solver. }
  destruct H4 as [v4 ->].
  destruct (unsupplied c "DATABASE" "table") eqn:U5.
  { right. destruct H5 as [-> | ->]; eexists; (split; [|reflexivity]);
      unfold setting_names; set_solver. }
  destruct H5 as [v5 ->].
  destruct (unsupplied c "FILES" "excel_file") eqn:U6.
  { right. destruct H6 as [-> | ->]; eexists; (split; [|reflexivity]);
      unfold setting_names; set_solver. }
  left. intros section key Hin. unfold lookups in Hin. cbn [In] in Hin.
  destruct Hin as [[= <- <-]|[[= <- <-]|[[= <- <-]|[[= <- <-]|[[= <- <-]|[[= <- <-]|[]]]]]]];
    assumption.
Qed.

(** X7. With a configuration file without percent signs in which one
    of the six settings is not supplied (its section is missing, or its
    key is neither in the section nor in DEFAULT), the loader raises
    [KeyError] for one of the names it looks up and changes nothing: no
    message, no log record, no template.  [main] then ends with that
    exception before any driver call. *)
Theorem read_config_missing_key path w c section key :
  fs w !! path = Some (IniFile c) ->
  percent_free c = true ->
  In (section, key) lookups ->
  unsupplied c section key = true ->
  exists name : string,
    name ∈ setting_names
    /\ read_config path w = (Raise (KeyError name), w)
    /\ (path = "config.ini" ->
          (main w).1 = Raise (KeyError name)
          /\ calls (main w).2 = calls w
          /\ fs (main w).2 = fs w
          /\ server (main w).2 = server w).
Proof.
  intros Hfile Hfree Hin Hmiss.
  destruct (loaded_plain c Hfree) as [Hall|(name & Hname & Hraise)].
  { rewrite (Hall section key Hin) in Hmiss. discriminate. }
  exists name. split; [exact Hname|]. split.
  - now rewrite (read_config_loaded path w c Hfile), Hraise.
  - intros ->. rewrite main_eq.
    assert (Hfile' : fs (started w) !! "config.ini" = Some (IniFile c)) by exact Hfile.
    rewrite (read_config_loaded "config.ini" (started w) c Hfile'), Hraise.
    cbn [fst snd]. split_and!; reflexivity.
Qed.

Lemma read_config_missing_key_password :
  fs passwordless !! "config.ini" = Some (IniFile config_without_password)
  /\ unsupplied config_without_password "DATABASE" "password" = true
  /\ exists name : string,
       name ∈ setting_names
       /\ read_config "config.ini" passwordless = (Raise (KeyError name), passwordless).
Proof.
  assert (Hfile : fs passwordless !! "config.ini"
                  = Some (IniFile config_without_password)) by (vm_compute; reflexivity).
  split; [exact Hfile|]. split; [reflexivity|].
  destruct (read_config_missing_key "config.ini" passwordless
              config_without_password "DATABASE" "password" Hfile eq_refl
              (or_intror (or_intror (or_intror (or_introl eq_refl)))) eq_refl)
    as (name & Hname & Hraise & _).
  exists name. split; assumption.
Defined.

(** X8. The template can be read back: after a first call on a path
    without a file, a second call on that path returns the placeholder
    settings of the template and changes nothing further. *)
Theorem read_config_reads_template_back path w :
  fs w !! path = None ->
  (read_config path w).1 = Raise (SystemExit 1)
  /\ read_config path (read_config path w).2
     = (Return placeholder_settings, (read_config path w).2).
Proof.
  intros Hnone. rewrite (read_config_missing path w Hnone). cbn [fst snd].
  split; [reflexivity|].
  apply (read_config_present _ _ default_config); [|reflexivity].
  cbn [fs]. apply lookup_insert_eq.
Qed.

Lemma read_config_reads_template_back_first_run :
  fs first_run !! "config.ini" = None
  /\ read_config "config.ini" (read_config "config.ini" first_run).2
     = (Return placeholder_settings, (read_config "config.ini" first_run).2).
Proof.
  split; [reflexivity|].
  exact (proj2 (read_config_reads_template_back "config.ini" first_run eq_refl)).
Defined.

(** ** The connector *)

(** X9. When the server accepts the login and the connection reports
    itself connected, the connector returns the connection, writes one
    INFO record and prints nothing; the one driver call is the
    connection attempt with the four settings of the configuration. *)
Theorem connect_returns_connection cfg w :
  srv_refuse (server w) = None ->
  srv_alive (server w) = true ->
  (connect_to_database cfg w).1 = Return (Some MySQLConnection)
  /\ log (connect_to_database cfg w).2 = log w ++ [(INFO, "Connected to MySQL database")]
  /\ stdout (connect_to_database cfg w).2 = stdout w
  /\ calls (connect_to_database cfg w).2
     = calls w ++ [CallConnect (host cfg) (database cfg) (user cfg) (password cfg)].
Proof.
  intros Hlogin Halive.
  destruct (connect_run cfg w) as (_ & _ & Hcalls & Hres).
  rewrite Hlogin, Halive in Hres. destruct Hres as (Hout & Hr & Hlog). auto.
Qed.

Lemma connect_returns_connection_form :
  (connect_to_database form_settings (configured quiet_server)).1
  = Return (Some MySQLConnection)
  /\ calls (connect_to_database form_settings (configured quiet_server)).2
     = [CallConnect "db.example" "forms" "importer" "secret"].
Proof.
  destruct (connect_returns_connection form_settings (configured quiet_server)
              eq_refl eq_refl) as (Hr & _ & _ & Hcalls).
  split; assumption.
Defined.

(** X10. When the login is accepted but the connection reports itself
    not connected, the connector returns [None] without a log record
    and without a message, and [main] returns with nothing on the
    terminal but its opening line. *)
Theorem connect_not_connected_is_silent cfg w :
  srv_refuse (server w) = None ->
  srv_alive (server w) = false ->
  (connect_to_database cfg w).1 = Return None
  /\ log (connect_to_database cfg w).2 = log w
  /\ stdout (connect_to_database cfg w).2 = stdout w
  /\ (forall ini : ini,
        fs w !! "config.ini" = Some (IniFile ini) ->
        settings ini = Some cfg ->
        (main w).1 = Return tt
        /\ stdout (main w).2
           = stdout w ++ [Line "Starting Excel to MySQL data transfer..."]
        /\ log (main w).2
           = log w ++ [(INFO, "Starting Excel to MySQL data transfer")]
        /\ calls (main w).2
           = calls w ++ [CallConnect (host cfg) (database cfg) (user cfg) (password cfg)]).
Proof.
  intros Hlogin Halive. split_and!.
  - destruct (connect_run cfg w) as (_ & _ & _ & Hres).
    rewrite Hlogin, Halive in Hres. tauto.
  - destruct (connect_run cfg w) as (_ & _ & _ & Hres).
    rewrite Hlogin, Halive in Hres. tauto.
  - destruct (connect_run cfg w) as (_ & _ & _ & Hres).
    rewrite Hlogin, Halive in Hres. tauto.
  - intros ini Hini Hset. rewrite main_eq.
    rewrite (read_config_present "config.ini" (started w) ini cfg Hini Hset).
    destruct (connect_run cfg (started w)) as (_ & _ & Ccalls & Cres).
    change (server (started w)) with (server w) in *.
    rewrite Hlogin, Halive in Cres. destruct Cres as (Cout & Cr & Clog).
    destruct (connect_to_database cfg (started w)) as [r w2]. cbn [fst snd] in *.
    subst r. cbn [fst snd]. rewrite Cout, Clog, Ccalls. split_and!; reflexivity.
Qed.

Lemma connect_not_connected_is_silent_stale :
  (connect_to_database form_settings (configured stale_server)).1 = Return None
  /\ stdout (main (configured stale_server)).2
     = [Line "Starting Excel to MySQL data transfer..."].
Proof.
  destruct (connect_not_connected_is_silent form_settings (configured stale_server)
              eq_refl eq_refl) as (Hr & _ & _ & Hmain).
  destruct (Hmain form_config eq_refl eq_refl) as (_ & Hout & _).
  split; assumption.
Defined.

(** X11. The connector catches the errors of the driver and nothing
    else.  It makes exactly one connection attempt and changes neither
    the files nor the server; it returns a connection or [None] unless
    the host name cannot be encoded, and then [UnicodeError] leaves it
    with nothing logged or printed, and a run of [main] ends with that
    exception after the connection attempt. *)
Theorem connect_catches_only_driver_errors cfg w :
  calls (connect_to_database cfg w).2
  = calls w ++ [CallConnect (host cfg) (database cfg) (user cfg) (password cfg)]
  /\ fs (connect_to_database cfg w).2 = fs w
  /\ server (connect_to_database cfg w).2 = server w
  /\ match srv_refuse (server w) with
     | Some (Unencodable msg) =>
         (connect_to_database cfg w).1 = Raise (UnicodeError msg)
         /\ log (connect_to_database cfg w).2 = log w
         /\ stdout (connect_to_database cfg w).2 = stdout w
         /\ (forall ini : ini,
               fs w !! "config.ini" = Some (IniFile ini) ->
               settings ini = Some cfg ->
               (main w).1 = Raise (UnicodeError msg)
               /\ calls (main w).2
                  = calls w ++ [CallConnect (host cfg) (database cfg)
                                            (user cfg) (password cfg)])
     | _ => exists r : option Connection, (connect_to_database cfg w).1 = Return r
     end.
Proof.
  destruct (connect_run cfg w) as (Hfs & Hsrv & Hcalls & Hres).
  split_and!; auto.
  destruct (srv_refuse (server w)) as [[e|msg]|] eqn:Hrefuse.
  - destruct Hres as (-> & _). eauto.
  - destruct Hres as (Hr & Hlog & Hout). split_and!; auto.
    intros ini Hini Hset. rewrite main_eq.
    rewrite (read_config_present "config.ini" (started w) ini cfg Hini Hset).
    destruct (connect_run cfg (started w)) as (_ & _ & Ccalls & Cres).
    change (server (started w)) with (server w) in *.
    change (calls (started w)) with (calls w) in *.
    rewrite Hrefuse in Cres. destruct Cres as (Cr & _).
    destruct (connect_to_database cfg (started w)) as [r w2]. cbn [fst snd] in *.
    subst r. cbn [fst snd]. auto.
  - destruct Hres as (_ & Hres). destruct (srv_alive (server w));
      destruct Hres as (-> & _); eauto.
Qed.

Lemma connect_catches_only_driver_errors_unencodable :
  (connect_to_database form_settings (configured unencodable_server)).1
  = Raise (UnicodeError "encoding with 'idna' codec failed")
  /\ (main (configured unencodable_server)).1
     = Raise (UnicodeError "encoding with 'idna' codec failed")
  /\ calls (main (configured unencodable_server)).2
     = [CallConnect "db.example" "forms" "importer" "secret"].
Proof.
  destruct (connect_catches_only_driver_errors form_settings
              (configured unencodable_server)) as (_ & _ & _ & Hr & _ & _ & Hmain).
  split; [exact Hr|]. exact (Hmain form_config eq_refl eq_refl).
Defined.

(** ** The row inserter, when a call is refused *)

(** X12. When the server refuses one of the row inserts, [insert_data]
    stops there: it returns [False], logs and prints the error of the
    server, has submitted only rows from the front of the data set, and
    never calls commit. *)
Theorem insert_refused_row_is_not_committed c df cols t w e :
  rejection (length (df_rows df)) (server w) = Some e ->
  (insert_data c df cols t w).1 = Return (VBool false)
  /\ log (insert_data c df cols t w).2 = log w ++ [(ERROR, "Error inserting data: " +:+ e)]
  /\ stdout (insert_data c df cols t w).2
     = stdout w ++ [Line ("Error inserting data: " +:+ e)]
  /\ exists k : nat,
       (0 < k <= length (df_rows df))%nat
       /\ calls (insert_data c df cols t w).2
          = calls w ++ CallCursor
              :: ((fun row => CallExecute (insert_sql t cols)
                                (Some (convert_timestamp <$> row)))
                  <$> take k (df_rows df))
       /\ CallCommit ∉ drop (length (calls w)) (calls (insert_data c df cols t w).2).
Proof.
  intros Hrej. rewrite insert_data_eq.
  set (w0 := (cursor c w).2).
  destruct (insert_rows_run (insert_sql t cols) (df_rows df) 0 w0)
    as (k & Hk & Ic & If & Il & Io & Ifa & Ires).
  change (server w0) with (server w) in *.
  change (log w0) with (log w) in *. change (stdout w0) with (stdout w) in *.
  change (calls w0) with (calls w ++ [CallCursor]) in *.
  destruct (insert_rows _ _ 0 w0) as [r w1]. cbn [fst snd] in *.
  destruct Ires as [(-> & -> & Hacc)|(e' & -> & Hrej')].
  { rewrite Hacc in Hrej. discriminate. }
  assert (He : e' = e).
  { unfold rejection in *.
    replace (length (df_rows df)) with (k + (length (df_rows df) - k))%nat in Hrej by lia.
    rewrite (first_fault_more _ _ _ _ Hrej') in Hrej. congruence. }
  subst e'.
  assert (Hpos : (0 < k)%nat).
  { destruct k; [discriminate Hrej' | lia]. }
  unfold insert_failed. cbn. rewrite Il, Io, Ic, <- app_assoc. cbn [app].
  split_and!; auto. exists k. split_and!; auto.
  rewrite drop_app_length. intros [Hin|Hin]%elem_of_cons; [discriminate|].
  apply list_elem_of_fmap in Hin as (row & Heq & _). discriminate.
Qed.

Lemma insert_refused_row_is_not_committed_second :
  rejection 2 (server one_row_then_refusal)
  = Some "1406 (22001): Data too long for column"
  /\ (insert_data MySQLConnection two_records form_columns "form_responses"
        one_row_then_refusal).1 = Return (VBool false)
  /\ calls (insert_data MySQLConnection two_records form_columns "form_responses"
              one_row_then_refusal).2
     = [ CallCursor;
         CallExecute (insert_sql "form_responses" form_columns)
           (Some [Some "Jane Doe"; Some "42.0"; Some "2024-01-02 03:04:05"]);
         CallExecute (insert_sql "form_responses" form_columns)
           (Some [Some "John Roe"; None; Some "2024-01-02 03:04:05"]) ].
Proof.
  split; [reflexivity|].
  destruct (insert_refused_row_is_not_committed MySQLConnection two_records
              form_columns "form_responses" one_row_then_refusal
              "1406 (22001): Data too long for column" eq_refl)
    as (Hr & _ & _ & _).
  split; [exact Hr | reflexivity].
Defined.

(** X13. For a data set without rows [insert_data] sends no statement:
    its driver calls are the cursor and the commit, and when the commit
    is accepted it returns [True] and reports 0 records. *)
Theorem insert_data_without_rows c df cols t w :
  df_rows df = [] ->
  calls (insert_data c df cols t w).2 = calls w ++ [CallCursor; CallCommit]
  /\ (rejection 1 (server w) = None ->
        (insert_data c df cols t w).1 = Return (VBool true)
        /\ stdout (insert_data c df cols t w).2
           = stdout w ++ [Line ("Successfully inserted 0 records into " +:+ t)]).
Proof.
  intros Hrows. split.
  - rewrite insert_data_eq, Hrows. cbn [insert_rows ret].
    pose proof (commit_run c (cursor c w).2) as (_ & _ & _ & Ccalls & _ & _ & Cres).
    destruct (commit c (cursor c w).2) as [r w2]. cbn [fst snd] in *. subst r.
    destruct (head (srv_faults (server (cursor c w).2))) as [[e|]|];
      cbn; rewrite Ccalls; cbn; now rewrite <- app_assoc.
  - intros Hacc. destruct (insert_data_run c df cols t w) as [_ Hrun].
    rewrite Hrows in Hrun. cbn [length] in Hrun. rewrite Hacc in Hrun.
    destruct Hrun as (Hr & _ & _ & Hout). split; [exact Hr | exact Hout].
Qed.

Lemma insert_data_without_rows_empty_sheet :
  calls (insert_data MySQLConnection {| df_cols := df_cols form_frame; df_rows := [] |}
           form_columns "form_responses" (configured quiet_server)).2
  = [CallCursor; CallCommit].
Proof.
  exact (proj1 (insert_data_without_rows MySQLConnection
                  {| df_cols := df_cols form_frame; df_rows := [] |}
                  form_columns "form_responses" (configured quiet_server) eq_refl)).
Defined.

(** ** The synchronization, when something is in the way *)

Lemma clean_columns_numeric (labels : list label) (z : Z) :
  LInt z ∈ labels ->
  clean_columns labels = Raise (AttributeError "'int' object has no attribute 'replace'").
Proof.
  induction labels as [|[h|z'] rest IH]; intros Hin.
  - now apply elem_of_nil in Hin.
  - apply elem_of_cons in Hin as [Hin|Hin]; [discriminate|].
    cbn [clean_columns]. now rewrite (IH Hin).
  - reflexivity.
Qed.

Lemma clean_columns_raises (labels : list label) (x : exn) :
  clean_columns labels = Raise x ->
  x = AttributeError "'int' object has no attribute 'replace'".
Proof.
  induction labels as [|[h|z] rest IH]; cbn [clean_columns]; intros Hx.
  - discriminate.
  - destruct (clean_columns rest) as [names|x']; [discriminate|].
    injection Hx as <-. now apply IH.
  - now injection Hx as <-.
Qed.

(** The synchronization returns, or raises an exception of the reader
    or of the header cleaning; and it never changes a file. *)
Lemma sync_outcome c path t w :
  fs (create_table_if_not_exists c path t w).2 = fs w
  /\ ((exists r, (create_table_if_not_exists c path t w).1 = Return r)
      \/ exists x, (create_table_if_not_exists c path t w).1 = Raise x
                   /\ foreign x = true
                   /\ calls (create_table_if_not_exists c path t w).2 = calls w).
Proof.
  destruct (fs w !! path) as [[ini|df|raw]|] eqn:Hfile.
  2: destruct (clean_columns (df_columns df)) as [cols|x] eqn:Hcols.
  2: { destruct (sync_run c path t w df cols Hfile Hcols) as (Hfs & _ & _ & Hrun).
       split; [exact Hfs|]. left.
       destruct (rejection 2 (server w)); destruct Hrun as (-> & _); eauto. }
  2: { pose proof (clean_columns_raises _ _ Hcols) as ->.
       rewrite sync_eq, Hfile, Hcols. cbn. split; [reflexivity|]. right. eauto. }
  all: rewrite sync_eq, Hfile; cbn; split; [reflexivity|]; right; eauto.
Qed.

(** X14. A sheet with a numeric header stops the synchronization at
    the cleaning of the names: [AttributeError] leaves the function,
    after the frame summary was printed and before any driver call, so
    no statement is sent and the tables stay as they are. *)
Theorem sync_numeric_header_raises c path t w df z :
  fs w !! path = Some (ExcelFile df) ->
  LInt z ∈ df_columns df ->
  (create_table_if_not_exists c path t w).1
  = Raise (AttributeError "'int' object has no attribute 'replace'")
  /\ calls (create_table_if_not_exists c path t w).2 = calls w
  /\ server (create_table_if_not_exists c path t w).2 = server w
  /\ stdout (create_table_if_not_exists c path t w).2 = stdout w ++ [FrameSummary df]
  /\ log (create_table_if_not_exists c path t w).2
     = log w ++ [(INFO, "DataFrame info: None")].
Proof.
  intros Hfile Hin. rewrite sync_eq, Hfile, (clean_columns_numeric _ _ Hin).
  cbn. auto.
Qed.

Lemma sync_numeric_header_raises_numbered :
  fs numbered_world !! "responses.xlsx" = Some (ExcelFile numbered_frame)
  /\ LInt 2024 ∈ df_columns numbered_frame
  /\ (create_table_if_not_exists MySQLConnection "responses.xlsx" "form_responses"
        numbered_world).1
     = Raise (AttributeError "'int' object has no attribute 'replace'").
Proof.
  assert (Hfile : fs numbered_world !! "responses.xlsx"
                  = Some (ExcelFile numbered_frame)) by (vm_compute; reflexivity).
  assert (Hin : LInt 2024 ∈ df_columns numbered_frame).
  { cbn. apply elem_of_cons. right. apply elem_of_cons. now left. }
  split; [exact Hfile|]. split; [exact Hin|].
  exact (proj1 (sync_numeric_header_raises MySQLConnection "responses.xlsx"
                  "form_responses" numbered_world numbered_frame 2024 Hfile Hin)).
Defined.

(** X15. When the server refuses the create statement, the
    synchronization returns the null pair without calling commit, and
    the tables of the server are as before. *)
Theorem sync_refused_statement_is_not_committed c path t w df cols e :
  fs w !! path = Some (ExcelFile df) ->
  clean_columns (df_columns df) = Return cols ->
  rejection 1 (server w) = Some e ->
  (create_table_if_not_exists c path t w).1 = Return None
  /\ calls (create_table_if_not_exists c path t w).2
     = calls w ++ [CallCursor; CallExecute (create_table_sql t cols) None]
  /\ srv_tables (server (create_table_if_not_exists c path t w).2)
     = srv_tables (server w)
  /\ log (create_table_if_not_exists c path t w).2
     = log w ++ [(INFO, "DataFrame info: None"); (ERROR, "Error creating table: " +:+ e)].
Proof.
  intros Hfile Hcols Hrej.
  destruct (sync_run c path t w df cols Hfile Hcols) as (_ & _ & Htab & Hrun).
  rewrite Hrej in Htab.
  assert (Hrej2 : rejection 2 (server w) = Some e).
  { unfold rejection in *. exact (first_fault_more 1 1 _ _ Hrej). }
  rewrite Hrej2 in Hrun. destruct Hrun as (Hr & _ & Hlog & _).
  split_and!; auto.
  rewrite sync_eq, Hfile, Hcols.
  pose proof (execute_run (create_table_sql t cols) None (cursor c (after_read df w)).2)
    as (_ & _ & _ & Ecalls & _ & Eres).
  change (server (cursor c (after_read df w)).2) with (server w) in Eres.
  unfold rejection in Hrej. rewrite first_fault_step in Hrej. cbn [first_fault] in Hrej.
  destruct (head (srv_faults (server w))) as [[e'|]|]; try discriminate Hrej.
  destruct Eres as [Er _].
  destruct (execute _ None _) as [r w2]. cbn [fst snd] in *. subst r.
  cbn. rewrite Ecalls. cbn. now rewrite <- app_assoc.
Qed.

Lemma sync_refused_statement_is_not_committed_denied :
  (create_table_if_not_exists MySQLConnection "responses.xlsx" "form_responses"
     (configured rejecting_server)).1 = Return None
  /\ calls (create_table_if_not_exists MySQLConnection "responses.xlsx" "form_responses"
              (configured rejecting_server)).2
     = [CallCursor; CallExecute (create_table_sql "form_responses" form_columns) None].
Proof.
  assert (Hfile : fs (configured rejecting_server) !! "responses.xlsx"
                  = Some (ExcelFile two_records)) by (vm_compute; reflexivity).
  destruct (sync_refused_statement_is_not_committed MySQLConnection "responses.xlsx"
              "form_responses" (configured rejecting_server) two_records form_columns
              "1142 (42000): CREATE command denied to user 'importer'"
              Hfile eq_refl eq_refl) as (Hr & Hcalls & _).
  split; assumption.
Defined.

(** ** Whole runs *)

Lemma read_config_not_ini path w f :
  fs w !! path = Some f ->
  (forall c, f <> IniFile c) ->
  read_config path w = (Raise (ParsingError path), w).
Proof.
  intros Hfile Hkind.
  unfold read_config, path_exists, configparser_read, bind, ret, raise.
  cbv beta iota. rewrite Hfile.
  replace (bool_decide (is_Some (Some f))) with true by reflexivity.
  cbv beta iota. cbn [negb]. cbv beta iota. rewrite Hfile.
  destruct f as [c| |]; [now destruct (Hkind c) | reflexivity | reflexivity].
Qed.

(** With a file at the path the loader leaves the world alone. *)
Lemma read_config_keeps_world path w :
  is_Some (fs w !! path) -> (read_config path w).2 = w.
Proof.
  intros [f Hfile]. destruct f as [c|df|raw].
  - now rewrite (read_config_loaded path w c Hfile).
  - now rewrite (read_config_not_ini path w _ Hfile) by discriminate.
  - now rewrite (read_config_not_ini path w _ Hfile) by discriminate.
Qed.

Lemma connect_log cfg w :
  log w `prefix_of` log (connect_to_database cfg w).2.
Proof.
  destruct (connect_run cfg w) as (_ & _ & _ & Hres).
  destruct (srv_refuse (server w)) as [[e|msg]|].
  - destruct Hres as (_ & -> & _). now apply prefix_app_r.
  - destruct Hres as (_ & -> & _). reflexivity.
  - destruct Hres as (_ & Hres). destruct (srv_alive (server w));
      destruct Hres as (_ & ->); [now apply prefix_app_r | reflexivity].
Qed.

Lemma sync_log c path t w :
  log w `prefix_of` log (create_table_if_not_exists c path t w).2.
Proof.
  destruct (fs w !! path) as [[ini|df|raw]|] eqn:Hfile.
  2: destruct (clean_columns (df_columns df)) as [cols|x] eqn:Hcols.
  2: { destruct (sync_run c path t w df cols Hfile Hcols) as (_ & _ & _ & Hrun).
       destruct (rejection 2 (server w)); destruct Hrun as (_ & _ & -> & _);
         now apply prefix_app_r. }
  2: { pose proof (clean_columns_raises _ _ Hcols) as ->.
       rewrite sync_eq, Hfile, Hcols. cbn. now apply prefix_app_r. }
  all: rewrite sync_eq, Hfile; reflexivity.
Qed.

Lemma transfer_log c cfg df cols w :
  log w `prefix_of` log (transfer c cfg df cols w).2.
Proof.
  rewrite transfer_eq.
  destruct (log_dtypes_run (df_cols df) (logging INFO "DataFrame data types:" w).2)
    as (Hr & _ & Hlog & _).
  destruct (log_dtypes _ _) as [r w1]. cbn [fst snd logging log] in *. subst r.
  destruct (insert_data_run c df cols (table cfg) w1) as (_ & Ires).
  assert (Hins : exists added b, (insert_data c df cols (table cfg) w1).1 = Return (VBool b)
                   /\ log (insert_data c df cols (table cfg) w1).2 = log w1 ++ added).
  { destruct (rejection _ _) as [e|].
    - destruct Ires as (Ir & _ & Il & _). eauto.
    - destruct Ires as (Ir & _ & Il & _). eauto. }
  destruct Hins as (added & b & Ir & Il).
  destruct (insert_data c df cols (table cfg) w1) as [r w2]. cbn [fst snd] in *.
  subst r.
  assert (Hwrap : log w2 `prefix_of` log (wrap_up c (VBool b) w2).2).
  { unfold wrap_up. run_driver. destruct b; cbn; rewrite <- app_assoc;
      now apply prefix_app_r. }
  etrans; [|exact Hwrap]. rewrite Il, Hlog, <- !app_assoc. now apply prefix_app_r.
Qed.

(** A run with a configuration file leaves every file as it is, and
    its log starts with the log before it and the opening record. *)
Lemma main_files_and_log w :
  is_Some (fs w !! "config.ini") ->
  fs (main w).2 = fs w
  /\ (log w ++ [(INFO, "Starting Excel to MySQL data transfer")])
     `prefix_of` log (main w).2.
Proof.
  intros Hsome. rewrite main_eq.
  assert (Hsome' : is_Some (fs (started w) !! "config.ini")) by exact Hsome.
  pose proof (read_config_keeps_world "config.ini" (started w) Hsome') as Rw.
  destruct (read_config "config.ini" (started w)) as [[cfg|x] w1]; cbn [fst snd] in *;
    subst w1; [|split; reflexivity].
  destruct (connect_run cfg (started w)) as (Cfs & _ & _ & _).
  pose proof (connect_log cfg (started w)) as Clog.
  change (fs (started w)) with (fs w) in Cfs.
  change (log (started w))
    with (log w ++ [(INFO, "Starting Excel to MySQL data transfer")]) in Clog.
  destruct (connect_to_database cfg (started w)) as [[[c|]|x] w2]; cbn [fst snd] in *;
    [| split; assumption | split; assumption].
  destruct (sync_outcome c (excel_file cfg) (table cfg) w2) as [Sfs _].
  pose proof (sync_log c (excel_file cfg) (table cfg) w2) as Slog.
  destruct (create_table_if_not_exists c (excel_file cfg) (table cfg) w2)
    as [[[[df cols]|]|x] w3]; cbn [fst snd] in *.
  - destruct (transfer_run c cfg df cols w3) as (w4 & _ & _ & _ & _ & Tfs & _).
    pose proof (transfer_log c cfg df cols w3) as Tlog.
    split; [now rewrite Tfs, Sfs, Cfs|]. etrans; [exact Clog|]. etrans; eassumption.
  - cbn. split; [now rewrite Sfs, Cfs|]. etrans; eassumption.
  - split; [now rewrite Sfs, Cfs|]. etrans; eassumption.
Qed.

(** X17. Once a configuration file exists, a run writes to no file but
    its log: whatever the outcome, the configuration file, the sheet
    and every other file are after [main] as they were before it, and
    the log file has only grown, by the opening record and what
    followed it. *)
Theorem main_keeps_files (w : World) :
  is_Some (fs w !! "config.ini") ->
  fs (main w).2 = fs w
  /\ exists added : list (level * string),
       log (main w).2
       = log w ++ (INFO, "Starting Excel to MySQL data transfer") :: added.
Proof.
  intros Hsome. destruct (main_files_and_log w Hsome) as [Hfs [added Hlog]].
  split; [exact Hfs|]. exists added. rewrite Hlog, <- app_assoc. reflexivity.
Qed.

Lemma main_keeps_files_configured :
  is_Some (fs (configured second_row_server) !! "config.ini")
  /\ fs (main (configured second_row_server)).2 = fs (configured second_row_server).
Proof.
  assert (Hsome : is_Some (fs (configured second_row_server) !! "config.ini")).
  { exists (IniFile form_config). vm_compute. reflexivity. }
  split; [exact Hsome|].
  exact (proj1 (main_keeps_files (configured second_row_server) Hsome)).
Defined.

(** X18. When the sheet cannot be read, [main] ends with the exception
    of the reader and the connection it opened is never closed: its
    only driver call is the connection attempt. *)
Theorem main_leaves_connection_open w ini cfg :
  fs w !! "config.ini" = Some (IniFile ini) ->
  settings ini = Some cfg ->
  srv_refuse (server w) = None ->
  srv_alive (server w) = true ->
  (forall df : DataFrame, fs w !! excel_file cfg <> Some (ExcelFile df)) ->
  (exists x : exn,
     (main w).1 = Raise x
     /\ (x = FileNotFoundError (excel_file cfg)
         \/ x = ValueError "Excel file format cannot be determined"))
  /\ calls (main w).2
     = calls w ++ [CallConnect (host cfg) (database cfg) (user cfg) (password cfg)]
  /\ CallClose ∉ drop (length (calls w)) (calls (main w).2).
Proof.
  intros Hini Hset Hlogin Halive Hsheet.
  assert (Hrun : exists x,
            (x = FileNotFoundError (excel_file cfg)
             \/ x = ValueError "Excel file format cannot be determined")
            /\ main w = (Raise x, (connect_to_database cfg (started w)).2)).
  { rewrite main_eq.
    rewrite (read_config_present "config.ini" (started w) ini cfg Hini Hset).
    destruct (connect_run cfg (started w)) as (Cfs & Csrv & _ & Cres).
    change (server (started w)) with (server w) in *.
    change (fs (started w)) with (fs w) in *.
    rewrite Hlogin, Halive in Cres. destruct Cres as (_ & Cr & _).
    destruct (connect_to_database cfg (started w)) as [r w2]. cbn [fst snd] in *.
    subst r. rewrite sync_eq, Cfs.
    destruct (fs w !! excel_file cfg) as [[c|df|raw]|] eqn:Hfile.
    - eauto.
    - now destruct (Hsheet df).
    - eauto.
    - eauto. }
  destruct Hrun as (x & Hx & ->). cbn [fst snd].
  destruct (connect_run cfg (started w)) as (_ & _ & Ccalls & _).
  change (calls (started w)) with (calls w) in Ccalls.
  split_and!; [eauto | exact Ccalls |].
  rewrite Ccalls, drop_app_length. intros Hin%list_elem_of_singleton. discriminate.
Qed.

Lemma main_leaves_connection_open_missing_sheet :
  (exists x : exn,
     (main sheet_missing).1 = Raise x
     /\ (x = FileNotFoundError "responses.xlsx"
         \/ x = ValueError "Excel file format cannot be determined"))
  /\ calls (main sheet_missing).2 = [CallConnect "db.example" "forms" "importer" "secret"].
Proof.
  assert (Hini : fs sheet_missing !! "config.ini" = Some (IniFile form_config))
    by (vm_compute; reflexivity).
  assert (Hsheet : forall df, fs sheet_missing !! excel_file form_settings
                              <> Some (ExcelFile df)).
  { intros df. vm_compute. discriminate. }
  destruct (main_leaves_connection_open sheet_missing form_config form_settings
              Hini eq_refl eq_refl eq_refl Hsheet) as (Hx & Hcalls & _).
  split; assumption.
Defined.

(** A run whose synchronization is accepted goes on with the tail of
    [main], two entries of the fault script further. *)
Lemma main_reaches_transfer w ini cfg df cols :
  fs w !! "config.ini" = Some (IniFile ini) ->
  settings ini = Some cfg ->
  srv_refuse (server w) = None ->
  srv_alive (server w) = true ->
  fs w !! excel_file cfg = Some (ExcelFile df) ->
  clean_columns (df_columns df) = Return cols ->
  rejection 2 (server w) = None ->
  exists w3 : World,
    main w = transfer MySQLConnection cfg df cols w3
    /\ calls w3
       = calls w ++ [ CallConnect (host cfg) (database cfg) (user cfg) (password cfg);
                      CallCursor;
                      CallExecute (create_table_sql (table cfg) cols) None;
                      CallCommit ]
    /\ srv_faults (server w3) = drop 2 (srv_faults (server w)).
Proof.
  intros Hini Hset Hlogin Halive Hfile Hcols Hacc2.
  assert (Hacc1 : rejection 1 (server w) = None).
  { unfold rejection in *. change 2%nat with (1 + 1)%nat in Hacc2.
    rewrite first_fault_split in Hacc2.
    destruct (first_fault 1 (srv_faults (server w))); [discriminate | reflexivity]. }
  rewrite main_eq.
  rewrite (read_config_present "config.ini" (started w) ini cfg Hini Hset).
  destruct (connect_run cfg (started w)) as (Cfs & Csrv & Ccalls & Cres).
  change (server (started w)) with (server w) in *.
  change (fs (started w)) with (fs w) in *.
  change (calls (started w)) with (calls w) in *.
  rewrite Hlogin, Halive in Cres. destruct Cres as (_ & Cr & _).
  destruct (connect_to_database cfg (started w)) as [r w2]. cbn [fst snd] in *.
  subst r.
  assert (Hfile2 : fs w2 !! excel_file cfg = Some (ExcelFile df)) by now rewrite Cfs.
  destruct (sync_run MySQLConnection (excel_file cfg) (table cfg) w2 df cols Hfile2 Hcols)
    as (_ & Sfaults & _ & Hrun).
  rewrite Csrv in Sfaults, Hrun. rewrite Hacc1 in Sfaults. rewrite Hacc2 in Hrun.
  destruct Hrun as (Sres & Scalls & _).
  destruct (create_table_if_not_exists _ _ _ w2) as [r w3]. cbn [fst snd] in *.
  subst r. exists w3. split; [reflexivity|]. split; [|exact Sfaults].
  rewrite Scalls, Ccalls, <- app_assoc. reflexivity.
Qed.

(** X19. In every run that reaches the synchronization with a readable
    sheet, whatever the server then accepts or refuses, [main] returns
    normally and closes the connection exactly once, as its last
    driver call. *)
Theorem main_closes_connection_once w ini cfg df cols :
  fs w !! "config.ini" = Some (IniFile ini) ->
  settings ini = Some cfg ->
  srv_refuse (server w) = None ->
  srv_alive (server w) = true ->
  fs w !! excel_file cfg = Some (ExcelFile df) ->
  clean_columns (df_columns df) = Return cols ->
  (main w).1 = Return tt
  /\ exists made : list call,
       calls (main w).2 = calls w ++ made ++ [CallClose]
       /\ CallClose ∉ made.
Proof.
  intros Hini Hset Hlogin Halive Hfile Hcols.
  destruct (rejection 2 (server w)) as [e|] eqn:Hrej.
  - destruct (main_after_failed_sync w ini cfg df cols e Hini Hset Hlogin Halive
                Hfile Hcols Hrej) as (Hr & tail & Htail & Hcalls).
    split; [exact Hr|].
    exists (CallConnect (host cfg) (database cfg) (user cfg) (password cfg)
              :: CallCursor
              :: CallExecute (create_table_sql (table cfg) cols) None :: tail).
    split; [exact Hcalls|].
    destruct Htail as [-> | ->]; intros Hin; not_listed Hin.
  - destruct (main_reaches_transfer w ini cfg df cols Hini Hset Hlogin Halive
                Hfile Hcols Hrej) as (w3 & -> & Hcalls3 & _).
    destruct (transfer_run MySQLConnection cfg df cols w3)
      as (w4 & _ & Tcalls & _ & Tres & _ & Tmade & _).
    destruct (insert_data_calls MySQLConnection df cols (table cfg) w4)
      as [(k & tail & _ & Htail & Hmade) _].
    split; [exact Tres|].
    exists ([ CallConnect (host cfg) (database cfg) (user cfg) (password cfg);
              CallCursor;
              CallExecute (create_table_sql (table cfg) cols) None;
              CallCommit;
              CallCursor ]
            ++ (row_call (insert_sql (table cfg) cols) <$> take k (df_rows df))
            ++ tail).
    split.
    + rewrite Tmade, Hmade, Tcalls, Hcalls3.
      repeat (rewrite <- app_assoc; cbn [app]). reflexivity.
    + intros Hin. apply elem_of_app in Hin as [Hin|Hin]; [not_listed Hin|].
      apply elem_of_app in Hin as [Hin|Hin].
      * apply list_elem_of_fmap in Hin as (row & Heq & _). discriminate.
      * destruct Htail as [-> | ->]; not_listed Hin.
Qed.

Lemma main_closes_connection_once_refused_row :
  (main (configured second_row_server)).1 = Return tt
  /\ exists made : list call,
       calls (main (configured second_row_server)).2
       = calls (configured second_row_server) ++ made ++ [CallClose]
       /\ CallClose ∉ made.
Proof.
  assert (Hini : fs (configured second_row_server) !! "config.ini"
                 = Some (IniFile form_config)) by (vm_compute; reflexivity).
  assert (Hfile : fs (configured second_row_server) !! excel_file form_settings
                  = Some (ExcelFile two_records)) by (vm_compute; reflexivity).
  exact (main_closes_connection_once (configured second_row_server) form_config
           form_settings two_records form_columns Hini eq_refl eq_refl eq_refl
           Hfile eq_refl).
Defined.

(** X20. After an accepted synchronization the last line on the
    terminal is the verdict of the run: the success line when every
    insert and the commit were accepted, the failure line as soon as
    one of them was refused. *)
Theorem main_prints_verdict w ini cfg df cols :
  fs w !! "config.ini" = Some (IniFile ini) ->
  settings ini = Some cfg ->
  srv_refuse (server w) = None ->
  srv_alive (server w) = true ->
  fs w !! excel_file cfg = Some (ExcelFile df) ->
  clean_columns (df_columns df) = Return cols ->
  rejection 2 (server w) = None ->
  last (stdout (main w).2)
  = Some (Line (match rejection (2 + S (length (df_rows df))) (server w) with
                | None => "Data transfer completed successfully!"
                | Some _ => "Data transfer failed. Check log file for details."
                end)).
Proof.
  intros Hini Hset Hlogin Halive Hfile Hcols Hacc.
  destruct (main_reaches_transfer w ini cfg df cols Hini Hset Hlogin Halive
              Hfile Hcols Hacc) as (w3 & -> & _ & Hfaults).
  destruct (transfer_run MySQLConnection cfg df cols w3)
    as (w4 & _ & _ & _ & _ & _ & _ & Tout).
  rewrite Tout, last_snoc. f_equal. f_equal.
  unfold rejection in *. rewrite Hfaults, (first_fault_split 2), Hacc.
  unfold verdict. cbn [truthy].
  destruct (first_fault (S (length (df_rows df))) (drop 2 (srv_faults (server w))));
    reflexivity.
Qed.

Lemma main_prints_verdict_refused_row :
  rejection 2 (server (configured second_row_server)) = None
  /\ last (stdout (main (configured second_row_server)).2)
     = Some (Line "Data transfer failed. Check log file for details.").
Proof.
  assert (Hini : fs (configured second_row_server) !! "config.ini"
                 = Some (IniFile form_config)) by (vm_compute; reflexivity).
  assert (Hfile : fs (configured second_row_server) !! excel_file form_settings
                  = Some (ExcelFile two_records)) by (vm_compute; reflexivity).
  split; [reflexivity|].
  exact (main_prints_verdict (configured second_row_server) form_config
           form_settings two_records form_columns Hini eq_refl eq_refl eq_refl
           Hfile eq_refl eq_refl).
Defined.

(** ** A refused commit *)

(** X21. When the server accepts the create statement and refuses its
    commit, the synchronization has sent both calls and still returns
    the null pair, with the error of the commit in the log and on the
    terminal. *)
Theorem sync_refused_commit_returns_null c path t w df cols e :
  fs w !! path = Some (ExcelFile df) ->
  clean_columns (df_columns df) = Return cols ->
  rejection 1 (server w) = None ->
  rejection 2 (server w) = Some e ->
  (create_table_if_not_exists c path t w).1 = Return None
  /\ calls (create_table_if_not_exists c path t w).2
     = calls w ++ [CallCursor; CallExecute (create_table_sql t cols) None; CallCommit]
  /\ log (create_table_if_not_exists c path t w).2
     = log w ++ [(INFO, "DataFrame info: None"); (ERROR, "Error creating table: " +:+ e)]
  /\ stdout (create_table_if_not_exists c path t w).2
     = stdout w ++ [FrameSummary df; Line ("Error creating table: " +:+ e)].
Proof.
  intros Hfile Hcols Hacc Hrej.
  destruct (sync_run c path t w df cols Hfile Hcols) as (_ & _ & _ & Hrun).
  rewrite Hrej in Hrun. destruct Hrun as (Hr & _ & Hlog & Hout).
  split_and!; auto.
  rewrite sync_eq, Hfile, Hcols.
  set (w1 := (cursor c (after_read df w)).2).
  pose proof (execute_run (create_table_sql t cols) None w1)
    as (_ & _ & _ & Ecalls & Efa & Eres).
  change (server w1) with (server w) in *.
  change (calls w1) with (calls w ++ [CallCursor]) in *.
  unfold rejection in Hacc, Hrej.
  change 2%nat with (1 + 1)%nat in Hrej.
  rewrite first_fault_split, Hacc, first_fault_step in Hrej.
  cbn [first_fault] in Hrej.
  rewrite first_fault_step in Hacc. cbn [first_fault] in Hacc.
  assert (Er : (execute (create_table_sql t cols) None w1).1 = Return tt).
  { destruct (head (srv_faults (server w))) as [[e'|]|];
      [discriminate Hacc | exact (proj1 Eres) | exact (proj1 Eres)]. }
  destruct (execute _ None w1) as [r w2]. cbn [fst snd] in *. subst r.
  pose proof (commit_run c w2) as (_ & _ & _ & Ccalls & _ & _ & Cres).
  rewrite Efa in Cres.
  destruct (head (drop 1 (srv_faults (server w)))) as [[e''|]|];
    try discriminate Hrej.
  destruct (commit c w2) as [r w3]. cbn [fst snd] in *. subst r.
  cbn. rewrite Ccalls, Ecalls, <- !app_assoc. reflexivity.
Qed.

Lemma sync_refused_commit_returns_null_form :
  (create_table_if_not_exists MySQLConnection "responses.xlsx" "form_responses"
     (configured commit_refusing_server)).1 = Return None
  /\ calls (create_table_if_not_exists MySQLConnection "responses.xlsx" "form_responses"
              (configured commit_refusing_server)).2
     = [ CallCursor; CallExecute (create_table_sql "form_responses" form_columns) None;
         CallCommit ].
Proof.
  assert (Hfile : fs (configured commit_refusing_server) !! "responses.xlsx"
                  = Some (ExcelFile two_records)) by (vm_compute; reflexivity).
  destruct (sync_refused_commit_returns_null MySQLConnection "responses.xlsx"
              "form_responses" (configured commit_refusing_server) two_records
              form_columns "1180 (HY000): Got error during COMMIT"
              Hfile eq_refl eq_refl eq_refl) as (Hr & Hcalls & _).
  split; assumption.
Defined.

(** X22. When every row insert is accepted and the commit is refused,
    [insert_data] has submitted all rows and the commit, returns
    [False], and reports the error of the commit instead of a count. *)
Theorem insert_refused_commit_reports_failure c df cols t w e :
  rejection (length (df_rows df)) (server w) = None ->
  rejection (S (length (df_rows df))) (server w) = Some e ->
  (insert_data c df cols t w).1 = Return (VBool false)
  /\ calls (insert_data c df cols t w).2
     = calls w ++ CallCursor
         :: ((fun row => CallExecute (insert_sql t cols)
                           (Some (convert_timestamp <$> row)))
             <$> df_rows df) ++ [CallCommit]
  /\ log (insert_data c df cols t w).2 = log w ++ [(ERROR, "Error inserting data: " +:+ e)]
  /\ stdout (insert_data c df cols t w).2
     = stdout w ++ [Line ("Error inserting data: " +:+ e)].
Proof.
  intros Hacc Hrej.
  destruct (insert_data_run c df cols t w) as [_ Hrun].
  rewrite Hrej in Hrun. destruct Hrun as (Hr & _ & Hlog & Hout).
  split_and!; auto.
  rewrite insert_data_eq.
  set (w0 := (cursor c w).2).
  destruct (insert_rows_run (insert_sql t cols) (df_rows df) 0 w0)
    as (k & Hk & Ic & _ & _ & _ & Ifa & Ires).
  change (server w0) with (server w) in *.
  change (calls w0) with (calls w ++ [CallCursor]) in *.
  destruct (insert_rows _ _ 0 w0) as [r w1]. cbn [fst snd] in *.
  destruct Ires as [(-> & -> & _)|(e' & -> & Hrej')].
  - rewrite firstn_all in Ic.
    pose proof (commit_run c w1) as (_ & _ & _ & Ccalls & _ & _ & Cres).
    unfold rejection in Hacc, Hrej.
    replace (S (length (df_rows df))) with (length (df_rows df) + 1)%nat in Hrej by lia.
    rewrite first_fault_split, Hacc, first_fault_step, <- Ifa in Hrej.
    cbn [first_fault] in Hrej.
    destruct (head (srv_faults (server w1))) as [[e''|]|]; try discriminate Hrej.
    destruct (commit c w1) as [r w2]. cbn [fst snd] in *. subst r.
    cbn. rewrite Ccalls, Ic, <- !app_assoc. reflexivity.
  - unfold rejection in *.
    replace (length (df_rows df)) with (k + (length (df_rows df) - k))%nat in Hacc by lia.
    rewrite (first_fault_more _ _ _ _ Hrej') in Hacc. discriminate.
Qed.

Lemma insert_refused_commit_reports_failure_two_records :
  (insert_data MySQLConnection two_records form_columns "form_responses"
     rows_then_refused_commit).1 = Return (VBool false)
  /\ stdout (insert_data MySQLConnection two_records form_columns "form_responses"
               rows_then_refused_commit).2
     = [Line "Error inserting data: 1180 (HY000): Got error during COMMIT"].
Proof.
  destruct (insert_refused_commit_reports_failure MySQLConnection two_records
              form_columns "form_responses" rows_then_refused_commit
              "1180 (HY000): Got error during COMMIT" eq_refl eq_refl)
    as (Hr & _ & _ & Hout).
  split; assumption.
Defined.

(** ** Lookups that configparser resolves or refuses *)

Lemma assoc_app {V} (key : string) (a b : list (string * V)) :
  assoc key (a ++ b)
  = match assoc key a with
    | Some v => Some v
    | None => assoc key b
    end.
Proof.
  induction a as [|[k v] a IH]; [reflexivity|].
  cbn [app assoc]. now destruct (String.eqb k key).
Qed.

Lemma ini_value_with_default (c : ini) (section key : string) keys defaults v :
  assoc section c = Some keys ->
  assoc "DEFAULT" c = Some defaults ->
  assoc key (keys ++ defaults) = Some v ->
  has_percent v = false ->
  ini_value c section key = Return v.
Proof.
  intros Hsec Hdef Hkey Hv. unfold ini_value. rewrite Hsec, Hdef.
  cbv beta iota zeta. cbn [default]. unfold id.
  rewrite <- assoc_app, Hkey. now apply interpolate_plain.
Qed.

(** X23. An exception of one of the six lookups is not caught, be it
    [KeyError] or an interpolation error of configparser, as for a
    value with a stray percent sign: the loader raises it with nothing
    written, logged or printed, and [main] ends with it before any
    driver call, having printed and logged only its opening line. *)
Theorem read_config_lookup_error_escapes path w c e :
  fs w !! path = Some (IniFile c) ->
  loaded c = Raise e ->
  read_config path w = (Raise e, w)
  /\ (path = "config.ini" ->
        (main w).1 = Raise e
        /\ calls (main w).2 = calls w
        /\ fs (main w).2 = fs w
        /\ server (main w).2 = server w
        /\ stdout (main w).2
           = stdout w ++ [Line "Starting Excel to MySQL data transfer..."]
        /\ log (main w).2
           = log w ++ [(INFO, "Starting Excel to MySQL data transfer")]).
Proof.
  intros Hfile Hraise. split.
  - now rewrite (read_config_loaded path w c Hfile), Hraise.
  - intros ->. rewrite main_eq.
    assert (Hfile' : fs (started w) !! "config.ini" = Some (IniFile c)) by exact Hfile.
    rewrite (read_config_loaded "config.ini" (started w) c Hfile'), Hraise.
    cbn [fst snd]. split_and!; reflexivity.
Qed.

Lemma read_config_lookup_error_escapes_stray_percent :
  fs (with_config config_with_stray_percent) !! "config.ini"
  = Some (IniFile config_with_stray_percent)
  /\ ini_value config_with_stray_percent "DATABASE" "password"
     = Raise (InterpolationError "InterpolationSyntaxError")
  /\ (main (with_config config_with_stray_percent)).1
     = Raise (InterpolationError "InterpolationSyntaxError")
  /\ calls (main (with_config config_with_stray_percent)).2 = [].
Proof.
  assert (Hfile : fs (with_config config_with_stray_percent) !! "config.ini"
                  = Some (IniFile config_with_stray_percent))
    by (vm_compute; reflexivity).
  split; [exact Hfile|]. split; [reflexivity|].
  destruct (read_config_lookup_error_escapes "config.ini"
              (with_config config_with_stray_percent) config_with_stray_percent
              (InterpolationError "InterpolationSyntaxError") Hfile eq_refl)
    as (_ & Hmain).
  destruct (Hmain eq_refl) as (Hr & Hcalls & _). split; assumption.
Defined.

(** X24. A setting that its section does not have is taken from the
    [DEFAULT] section of the file: with values free of percent signs,
    the loader returns for each of the six keys the value of its
    section if the section has the key, and else the value that
    [DEFAULT] gives it, and changes nothing. *)
Theorem read_config_uses_default_section path w c db files defaults h d u p t x :
  fs w !! path = Some (IniFile c) ->
  assoc "DATABASE" c = Some db ->
  assoc "FILES" c = Some files ->
  assoc "DEFAULT" c = Some defaults ->
  assoc "host" (db ++ defaults) = Some h ->
  assoc "database" (db ++ defaults) = Some d ->
  assoc "user" (db ++ defaults) = Some u ->
  assoc "password" (db ++ defaults) = Some p ->
  assoc "table" (db ++ defaults) = Some t ->
  assoc "excel_file" (files ++ defaults) = Some x ->
  has_percent h = false ->
  has_percent d = false ->
  has_percent u = false ->
  has_percent p = false ->
  has_percent t = false ->
  has_percent x = false ->
  read_config path w
  = (Return {| host := h; database := d; user := u; password := p;
               table := t; excel_file := x |}, w).
Proof.
  intros Hfile Hdb Hfiles Hdef Hh Hd Hu Hp Ht Hx Fh Fd Fu Fp Ft Fx.
  rewrite (read_config_loaded path w c Hfile). f_equal. unfold loaded.
  rewrite (ini_value_with_default c "DATABASE" "host" db defaults h) by assumption.
  rewrite (ini_value_with_default c "DATABASE" "database" db defaults d) by assumption.
  rewrite (ini_value_with_default c "DATABASE" "user" db defaults u) by assumption.
  rewrite (ini_value_with_default c "DATABASE" "password" db defaults p) by assumption.
  rewrite (ini_value_with_default c "DATABASE" "table" db defaults t) by assumption.
  rewrite (ini_value_with_default c "FILES" "excel_file" files defaults x) by assumption.
  reflexivity.
Qed.

Lemma read_config_uses_default_section_table :
  assoc "table" (default [] (assoc "DATABASE" config_with_defaults)) = None
  /\ read_config "config.ini" (with_config config_with_defaults)
     = (Return form_settings, with_config config_with_defaults).
Proof.
  split; [reflexivity|].
  assert (Hfile : fs (with_config config_with_defaults) !! "config.ini"
                  = Some (IniFile config_with_defaults))
    by (vm_compute; reflexivity).
  exact (read_config_uses_default_section "config.ini"
           (with_config config_with_defaults) config_with_defaults _ _ _
           "db.example" "forms" "importer" "secret" "form_responses"
           "responses.xlsx" Hfile eq_refl eq_refl eq_refl eq_refl eq_refl eq_refl
           eq_refl eq_refl eq_refl eq_refl eq_refl eq_refl eq_refl eq_refl eq_refl).
Defined.

